(** * TORAX source models: the constant-fraction impurity radiation sink
      and the pydantic configuration of the sources

    A shallow embedding of
      - [torax/sources/impurity_radiation_heat_sink/impurity_radiation_constant_fraction.py]
      - [torax/sources/pydantic_model.py]
    followed by the properties of these modules.

    Conventions.
      - Python exceptions are values of [exn]; a computation that may raise
        has type [result A] and is sequenced with [x ← m; k].
      - A Python [dict] is an association list in insertion order (iteration
        order decides the order of the floating point additions); a
        well-formed one has pairwise distinct keys.
      - A rank-1 [jax.Array] is a [list] of scalars of an abstract type [F]
        with the operations of the class [Scalar]; no algebraic law is
        assumed of them unless a statement lists it. *)

From Stdlib Require Import Ascii String QArith Qcanon Lia PrimFloat.
From stdpp Require Import base option list gmap strings.

#[local] Set Warnings "-inexact-float,-register-all".

Local Open Scope string_scope.
Local Open Scope list_scope.
Local Open Scope nat_scope.

(** ** Python: exceptions and dictionaries *)

Inductive exn : Type :=
| KeyError (key : string)
| AssertionError
| ValueError (msg : string)
| TypeError (msg : string)
| IndexError (msg : string)
| AttributeError (msg : string)
| ValidationError (msg : string).

(** The argument an exception is raised with: its message, or the missing key. *)
Definition exn_message (e : exn) : string :=
  match e with
  | KeyError key => key
  | AssertionError => ""
  | ValueError msg | TypeError msg | IndexError msg
  | AttributeError msg | ValidationError msg => msg
  end.

Inductive result (A : Type) : Type :=
| Ok (a : A)
| Raise (e : exn).

Arguments Ok {A} a.
Arguments Raise {A} e.

#[global] Instance result_ret : MRet result := fun _ a => Ok a.

#[global] Instance result_bind : MBind result := fun _ _ k m =>
  match m with
  | Ok a => k a
  | Raise e => Raise e
  end.

#[global] Instance result_fmap : FMap result := fun _ _ f m =>
  match m with
  | Ok a => Ok (f a)
  | Raise e => Raise e
  end.

Definition dict (V : Type) : Type := list (string * V).

(** [d.keys()], in insertion order *)
Definition dict_keys {V} (d : dict V) : list string := fst <$> d.

Fixpoint dict_lookup {V} (k : string) (d : dict V) : option V :=
  match d with
  | [] => None
  | (k', v) :: d' => if String.eqb k k' then Some v else dict_lookup k d'
  end.

(** [k in d] *)
Definition dict_contains {V} (k : string) (d : dict V) : bool :=
  match dict_lookup k d with Some _ => true | None => false end.

(** [d[k]] *)
Definition dict_getitem {V} (d : dict V) (k : string) : result V :=
  match dict_lookup k d with
  | Some v => Ok v
  | None => Raise (KeyError k)
  end.

(** [d.get(k, default)] *)
Definition dict_get {V} (d : dict V) (k : string) (default : V) : V :=
  match dict_lookup k d with
  | Some v => v
  | None => default
  end.

(** [d[k] = v]: an existing key keeps its position, a new one goes last *)
Fixpoint dict_setitem {V} (k : string) (v : V) (d : dict V) : dict V :=
  match d with
  | [] => [(k, v)]
  | (k', v') :: d' =>
      if String.eqb k k' then (k, v) :: d' else (k', v') :: dict_setitem k v d'
  end.

(** [p in s] on strings: [p] occurs in [s] as a substring *)
Fixpoint str_contains (p s : string) : bool :=
  String.prefix p s ||
  match s with
  | EmptyString => false
  | String _ s' => str_contains p s'
  end.

(** Values of a raw configuration: what a user-supplied mapping holds. *)
Inductive pyval : Type :=
| PNone
| PBool (b : bool)
| PInt (n : Z)
| PFloat (x : float)
| PStr (s : string)
| PList (items : list pyval)
| PDict (items : list (string * pyval)).

(** A loop [for x in xs: acc = body(acc, x)] whose body may raise *)
Fixpoint for_in {A B} (xs : list B) (body : A → B → result A) (acc : A) : result A :=
  match xs with
  | [] => Ok acc
  | x :: xs' => acc' ← body acc x; for_in xs' body acc'
  end.

(** ** jax.numpy on rank-1 arrays *)

Class Scalar (F : Type) : Type := {
  fzero : F;
  fone : F;
  fadd : F → F → F;
  fsub : F → F → F;
  fmul : F → F → F;
  fdiv : F → F → F;
  fneg : F → F;
  fleb : F → F → bool
}.

Declare Scope scalar_scope.
Delimit Scope scalar_scope with F.
Notation "0" := fzero : scalar_scope.
Notation "1" := fone : scalar_scope.
Infix "+" := fadd : scalar_scope.
Infix "-" := fsub : scalar_scope.
Infix "*" := fmul : scalar_scope.
Infix "/" := fdiv : scalar_scope.
Notation "- x" := (fneg x) : scalar_scope.
Infix "<=?" := fleb : scalar_scope.

(** The laws of arithmetic a statement may ask of the scalars. Real numbers
    and rationals have them all; binary floating point has some. *)
Section Laws.
Context (F : Type) `{Scalar F}.

Definition law_add_zero_l : Prop := ∀ x : F, (0 + x)%F = x.
Definition law_mul_one_r : Prop := ∀ x : F, (x * 1)%F = x.
Definition law_mul_zero_l : Prop := ∀ x : F, (0 * x)%F = 0%F.
Definition law_mul_zero_r : Prop := ∀ x : F, (x * 0)%F = 0%F.
Definition law_div_zero_l : Prop := ∀ x : F, x ≠ 0%F → (0 / x)%F = 0%F.
Definition law_neg_mul : Prop := ∀ c x : F, (- (c * x))%F = (c * - x)%F.
Definition law_mul_assoc : Prop := ∀ c x y : F, (c * x * y)%F = (c * (x * y))%F.
Definition law_div_mul : Prop := ∀ c x y : F, (c * x / y)%F = (c * (x / y))%F.

End Laws.

Module jnp.

Definition array (F : Type) : Type := list F.

Section Arrays.
Context {F : Type} `{Scalar F}.

Definition zeros_like (a : array F) : array F := replicate (length a) 0%F.

Definition ones_like (a : array F) : array F := replicate (length a) 1%F.

(** An elementwise binary operation under NumPy's broadcasting rule for two
    rank-1 operands: equal lengths, or one operand of length one. *)
Definition broadcast (op : F → F → F) (a b : array F) : result (array F) :=
  if length a =? length b then Ok (zip_with op a b)
  else match a, b with
       | [x], _ => Ok (op x <$> b)
       | _, [y] => Ok ((λ x, op x y) <$> a)
       | _, _ => Raise (TypeError "incompatible shapes for broadcasting")
       end.

Definition add : array F → array F → result (array F) := broadcast fadd.

Definition multiply : array F → array F → result (array F) := broadcast fmul.

(** a rank-0 value times a rank-1 array *)
Definition scale (c : F) (a : array F) : array F := fmul c <$> a.

(** [a[-1]] *)
Definition getitem_last (a : array F) : result F :=
  match last a with
  | Some x => Ok x
  | None => Raise (IndexError "index -1 is out of bounds for axis 0 with size 0")
  end.

End Arrays.
End jnp.

(** ** The collaborators of the model function

    Only what [radially_constant_fraction_of_Pin] reads of them. *)

Module geometry.

(** [geometry.Geometry]: the radial coordinate of the cells, the volume
    derivative on the cells and the cumulative volume on the faces. *)
Record Geometry (F : Type) : Type := {
  rho : jnp.array F;
  vpr : jnp.array F;
  volume_face : jnp.array F
}.

Arguments rho {F} _.
Arguments vpr {F} _.
Arguments volume_face {F} _.

End geometry.

(** [torax.math_utils] is not among the sources: its [cell_integration] is a
    parameter of the development. It may raise (it checks the shape of its
    argument against the grid). *)
Class MathUtils (F : Type) : Type := {
  cell_integration : jnp.array F → geometry.Geometry F → result F
}.

Module source_profiles_lib.

(** [SourceProfiles]: per governing equation, the profile each source
    contributes, by source name. The model reads the two heat equations. *)
Record SourceProfiles (F : Type) : Type := {
  temp_el : dict (jnp.array F);
  temp_ion : dict (jnp.array F)
}.

Arguments temp_el {F} _.
Arguments temp_ion {F} _.

End source_profiles_lib.

Module runtime_params_lib.

(** Modelled from the spec: the enumeration [runtime_params.Mode] is not among
    the sources; the spec lists a mode as inactive, model-based or
    prescribed-value. The sources name [Mode.MODEL_BASED]. *)
Inductive Mode : Type := ZERO | MODEL_BASED | PRESCRIBED.

End runtime_params_lib.

(** Arguments the model function receives and never reads. *)
Variant StaticRuntimeParamsSlice : Type := static_runtime_params_slice.
Variant CoreProfiles : Type := core_profiles.

(** ** impurity_radiation_constant_fraction.py *)

Module impurity_radiation_constant_fraction.
Import geometry source_profiles_lib.

Definition MODEL_FUNCTION_NAME : string := "radially_constant_fraction_of_Pin".

(** [DynamicRuntimeParams]: the one field the class declares. *)
Record DynamicRuntimeParams (F : Type) : Type := {
  fraction_of_total_power_density : F
}.

Arguments Build_DynamicRuntimeParams {F} _.
Arguments fraction_of_total_power_density {F} _.

(** What [dynamic_runtime_params_slice.sources] holds under a source name:
    the dynamic parameters of this model, or those of another source, which
    the [isinstance] assertion tells apart. *)
Inductive SourceDynamicRuntimeParams (F : Type) : Type :=
| OfConstantFraction (p : DynamicRuntimeParams F)
| OfAnotherSource.

Arguments OfConstantFraction {F} p.
Arguments OfAnotherSource {F}.

Record DynamicRuntimeParamsSlice (F : Type) : Type := {
  sources : dict (SourceDynamicRuntimeParams F)
}.

Arguments sources {F} _.

Section Model.
Context {F : Type} `{Scalar F} `{MathUtils F}.

(** [assert isinstance(dynamic_source_runtime_params, DynamicRuntimeParams)] *)
Definition assert_isinstance (p : SourceDynamicRuntimeParams F)
  : result (DynamicRuntimeParams F) :=
  match p with
  | OfConstantFraction p => Ok p
  | OfAnotherSource => Raise AssertionError
  end.

Definition missing_profiles_message : string :=
  ("calculated_source_profiles is a required argument for"
   ++ " `radially_constant_fraction_of_Pin`. This can occur if this source"
   ++ " function is used in an explicit source.")%string.

(** One of the two loops
    [for source_name in profiles: if 'sink' not in source_name:
       source_profiles += profiles[source_name]] *)
Definition add_heating_inputs (profiles : dict (jnp.array F))
    (source_profiles : jnp.array F) : result (jnp.array F) :=
  for_in (dict_keys profiles)
    (λ source_profiles source_name,
       if negb (str_contains "sink" source_name)
       then q ← dict_getitem profiles source_name; jnp.add source_profiles q
       else Ok source_profiles)
    source_profiles.

(** [Qtot_in]: lines 78 to 86 *)
Definition Qtot_in (geo : Geometry F) (calculated_source_profiles : SourceProfiles F)
  : result (jnp.array F) :=
  let source_profiles := jnp.zeros_like (rho geo) in
  source_profiles ← add_heating_inputs (temp_el calculated_source_profiles) source_profiles;
  add_heating_inputs (temp_ion calculated_source_profiles) source_profiles.

(** [Ptot_in]: line 87 *)
Definition Ptot_in (geo : Geometry F) (Qtot_in : jnp.array F) : result F :=
  weighted ← jnp.multiply Qtot_in (vpr geo);
  cell_integration weighted geo.

Definition radially_constant_fraction_of_Pin
    (unused_static_runtime_params_slice : StaticRuntimeParamsSlice)
    (dynamic_runtime_params_slice : DynamicRuntimeParamsSlice F)
    (geo : Geometry F)
    (source_name : string)
    (unused_core_profiles : CoreProfiles)
    (calculated_source_profiles : option (SourceProfiles F))
  : result (list (jnp.array F)) :=
  dynamic_source_runtime_params ←
    dict_getitem (sources dynamic_runtime_params_slice) source_name;
  dynamic_source_runtime_params ← assert_isinstance dynamic_source_runtime_params;
  match calculated_source_profiles with
  | None => Raise (ValueError missing_profiles_message)
  | Some calculated_source_profiles =>
      Qtot_in ← Qtot_in geo calculated_source_profiles;
      Ptot_in ← Ptot_in geo Qtot_in;
      Vtot ← jnp.getitem_last (volume_face geo);
      Ok [ jnp.scale
             (- fraction_of_total_power_density dynamic_source_runtime_params
                * Ptot_in / Vtot)%F
             (jnp.ones_like (rho geo)) ]
  end.

(** The aggregate in the words of the specification: the profiles of the
    entries whose name is not marked as a sink, in the order of the mapping,
    and their elementwise sum onto a starting array. The model function is
    compared with these below. *)
Definition heating_inputs (profiles : dict (jnp.array F)) : list (jnp.array F) :=
  snd <$> List.filter (λ entry, negb (str_contains "sink" entry.1)) profiles.

Definition sum_onto (start : jnp.array F) (terms : list (jnp.array F))
  : result (jnp.array F) :=
  for_in terms jnp.add start.

(** Modelled from the spec: the equations a source contributes to are declared
    by its source class, which is not among the sources. By the spec (and the
    docstring of the model function) the sink is a term of the electron heat
    equation and of no other; the returned tuple is aligned to that list. *)
Inductive AffectedCoreProfile : Type := PSI | NE | TEMP_ION | TEMP_EL.

Definition affected_core_profiles : list AffectedCoreProfile := [TEMP_EL].

Definition contributions (profiles : list (jnp.array F))
  : list (AffectedCoreProfile * jnp.array F) :=
  zip affected_core_profiles profiles.

End Model.

(** *** The configuration class *)

(** The validators of [torax_pydantic.TimeVaryingScalar] and of
    [runtime_params.Mode] are not among the sources: they are parameters,
    and so is the type of a validated time-varying scalar. *)
Class ToraxPydantic (TimeVaryingScalar : Type) : Type := {
  validate_TimeVaryingScalar : pyval → result TimeVaryingScalar;
  validate_Mode : pyval → result runtime_params_lib.Mode
}.

(** [ImpurityRadiationHeatSinkConstantFractionConfig]: the four fields the
    class declares (those of [SourceModelBase] are not among the sources). *)
Record ImpurityRadiationHeatSinkConstantFractionConfig (TimeVaryingScalar : Type) : Type := {
  source_name : string;
  model_func : string;
  config_fraction_of_total_power_density : TimeVaryingScalar;
  mode : runtime_params_lib.Mode
}.

Arguments source_name {_} _.
Arguments model_func {_} _.
Arguments config_fraction_of_total_power_density {_} _.
Arguments mode {_} _.

(** A field annotated [Literal[lit]] accepts the string [lit] and nothing else. *)
Definition validate_Literal (lit : string) (v : pyval) : result string :=
  match v with
  | PStr s => if String.eqb s lit then Ok s else Raise (ValidationError "literal_error")
  | _ => Raise (ValidationError "literal_error")
  end.

(** A pydantic field: the validated value of the key when the raw mapping
    has it, the default otherwise. *)
Definition validate_field {A} (raw : dict pyval) (name : string)
    (validate : pyval → result A) (default : result A) : result A :=
  match dict_lookup name raw with
  | Some v => validate v
  | None => default
  end.

Section Config.
Context {TimeVaryingScalar : Type} `{ToraxPydantic TimeVaryingScalar}.

(** [torax_pydantic.ValidatedDefault(0.1)]: the default goes through the
    field's validator. *)
Definition default_fraction_of_total_power_density : result TimeVaryingScalar :=
  validate_TimeVaryingScalar (PFloat 0.1%float).

Definition model_validate (raw : dict pyval)
  : result (ImpurityRadiationHeatSinkConstantFractionConfig TimeVaryingScalar) :=
  source_name ← validate_field raw "source_name"
    (validate_Literal "impurity_radiation_heat_sink")
    (Ok "impurity_radiation_heat_sink");
  model_func ← validate_field raw "model_func"
    (validate_Literal "radially_constant_fraction_of_Pin")
    (Ok "radially_constant_fraction_of_Pin");
  fraction ← validate_field raw "fraction_of_total_power_density"
    validate_TimeVaryingScalar
    default_fraction_of_total_power_density;
  mode ← validate_field raw "mode" validate_Mode (Ok runtime_params_lib.MODEL_BASED);
  Ok {| source_name := source_name;
        model_func := model_func;
        config_fraction_of_total_power_density := fraction;
        mode := mode |}.

End Config.

(** *** The runtime parameters provider *)

(** Modelled from the spec: [interpolated_param.InterpolatedVarSingleAxis] is
    not among the sources. The spec's time-varying value is an ordered
    sequence of (time, value) samples with an interpolation mode; before the
    first sample and after the last one it evaluates to the boundary
    sample's value, and a single sample is a constant. *)
Inductive InterpolationMode : Type := PIECEWISE_LINEAR | STEP.

Record InterpolatedVarSingleAxis (F : Type) : Type := {
  first_sample : F * F;
  later_samples : list (F * F);
  interpolation_mode : InterpolationMode
}.

Arguments first_sample {F} _.
Arguments later_samples {F} _.
Arguments interpolation_mode {F} _.

(** [RuntimeParamsProvider]: the one field the class declares. *)
Record RuntimeParamsProvider (F : Type) : Type := {
  provider_fraction_of_total_power_density : InterpolatedVarSingleAxis F
}.

Arguments provider_fraction_of_total_power_density {F} _.

Section Provider.
Context {F : Type} `{Scalar F}.

Definition between (mode : InterpolationMode) (t x0 y0 x1 y1 : F) : F :=
  match mode with
  | PIECEWISE_LINEAR => (y0 + (y1 - y0) * (t - x0) / (x1 - x0))%F
  | STEP => if (x1 <=? t)%F then y1 else y0
  end.

Fixpoint after (mode : InterpolationMode) (t x0 y0 : F) (later : list (F * F)) : F :=
  match later with
  | [] => y0
  | (x1, y1) :: later' =>
      if (t <=? x1)%F then between mode t x0 y0 x1 y1 else after mode t x1 y1 later'
  end.

Definition get_value (v : InterpolatedVarSingleAxis F) (t : F) : F :=
  let '(x0, y0) := first_sample v in
  if (t <=? x0)%F then y0 else after (interpolation_mode v) t x0 y0 (later_samples v).

(** Modelled from the spec: the inherited [get_dynamic_params_kwargs] is not
    among the sources. By the spec the dynamic parameters are the provider's
    time-varying fields evaluated at [t], a function of [t] and of the
    provider's state alone; the provider is an object whose state the call
    could change, so the state after the call is returned with the
    keyword arguments. *)
Definition get_dynamic_params_kwargs (self : RuntimeParamsProvider F) (t : F)
  : dict F * RuntimeParamsProvider F :=
  ([("fraction_of_total_power_density",
     get_value (provider_fraction_of_total_power_density self) t)],
   self).

(** The constructor [DynamicRuntimeParams] applied to unpacked keyword
    arguments: a dataclass constructor takes each of its fields once and no
    other keyword. *)
Definition DynamicRuntimeParams_init (kwargs : dict F) : result (DynamicRuntimeParams F) :=
  if forallb (String.eqb "fraction_of_total_power_density") (dict_keys kwargs)
  then match dict_lookup "fraction_of_total_power_density" kwargs with
       | Some x => Ok (Build_DynamicRuntimeParams x)
       | None => Raise (TypeError "missing a required keyword argument")
       end
  else Raise (TypeError "got an unexpected keyword argument").

(** [build_dynamic_params], over any implementation of the inherited helper *)
Definition build_dynamic_params_with
    (helper : RuntimeParamsProvider F → F → dict F * RuntimeParamsProvider F)
    (self : RuntimeParamsProvider F) (t : F)
  : result (DynamicRuntimeParams F) * RuntimeParamsProvider F :=
  let '(kwargs, self) := helper self t in
  (DynamicRuntimeParams_init kwargs, self).

Definition build_dynamic_params
  : RuntimeParamsProvider F → F → result (DynamicRuntimeParams F) * RuntimeParamsProvider F :=
  build_dynamic_params_with get_dynamic_params_kwargs.

End Provider.
End impurity_radiation_constant_fraction.

(** ** pydantic_model.py *)

Module pydantic_model.
Import impurity_radiation_constant_fraction.

Definition get_impurity_heat_sink_discriminator_value (model : dict pyval) : pyval :=
  dict_get model "model_func" (PStr "impurity_radiation_mavrin_fit").

(** [ImpurityRadiationHeatSinkConfig]: the union of the two tagged variants. *)
Inductive ImpurityRadiationHeatSinkConfig (MavrinFitConfig TimeVaryingScalar : Type) : Type :=
| MavrinFit (config : MavrinFitConfig)
| ConstantFraction
    (config : ImpurityRadiationHeatSinkConstantFractionConfig TimeVaryingScalar).

Arguments MavrinFit {_ _} config.
Arguments ConstantFraction {_ _} config.

(** [impurity_radiation_mavrin_fit] is not among the sources: the validation
    of its configuration class is a parameter. *)
Class MavrinFitModule (MavrinFitConfig : Type) : Type := {
  mavrin_fit_model_validate : dict pyval → result MavrinFitConfig
}.

Section Discriminated.
Context {MavrinFitConfig TimeVaryingScalar : Type}.
Context `{MavrinFitModule MavrinFitConfig} `{ToraxPydantic TimeVaryingScalar}.

(** The variant a tag selects: the table of the two [pydantic.Tag]s. A tag
    that is not one of them selects none. *)
Definition variant_of_tag (tag : pyval)
  : option (dict pyval → result (ImpurityRadiationHeatSinkConfig MavrinFitConfig TimeVaryingScalar)) :=
  match tag with
  | PStr tag =>
      if String.eqb tag "impurity_radiation_mavrin_fit"
      then Some (λ raw, MavrinFit <$> mavrin_fit_model_validate raw)
      else if String.eqb tag "radially_constant_fraction_of_Pin"
      then Some (λ raw, ConstantFraction <$> model_validate raw)
      else None
  | _ => None
  end.

(** Validation against a union with a callable [pydantic.Discriminator]: the
    callable is applied to the raw mapping, and the mapping is then validated
    against the variant its tag selects. *)
Definition validate_ImpurityRadiationHeatSinkConfig (raw : dict pyval)
  : result (ImpurityRadiationHeatSinkConfig MavrinFitConfig TimeVaryingScalar) :=
  match variant_of_tag (get_impurity_heat_sink_discriminator_value raw) with
  | Some validate => validate raw
  | None => Raise (ValidationError "union_tag_invalid")
  end.

End Discriminated.

(** *** [Sources._conform_data]

    The validator updates the entries of a copy in place, so what matters of
    the raw mapping is which of its keys are bound to one and the same
    object. The mapping binds each key to the address of an object in a
    store; the contents of an entry are never changed below its own keys and
    are plain values. *)

Definition loc : Type := nat.

(** An object a key is bound to: a [dict], or a value that is not one. *)
Inductive object : Type :=
| Mapping (fields : dict pyval)
| Atom (value : pyval).

Record RawMapping : Type := {
  entries : dict loc;
  objects : gmap loc object
}.

(** [copy.deepcopy] keeps a memo of the objects it has copied: two keys bound
    to one object are bound to one copy. The copy has the shape of the
    original, its objects at the same addresses of a store of its own. *)
Definition deepcopy (data : RawMapping) : RawMapping :=
  {| entries := entries data; objects := objects data |}.

(** [constructor_data[key].update({'source_name': key})]. Only a [dict] has
    the method (an address the store does not bind has no counterpart in
    Python; the model raises there as well). *)
Definition update_source_name (constructor_data : RawMapping) (key : string)
  : result RawMapping :=
  l ← dict_getitem (entries constructor_data) key;
  match objects constructor_data !! l with
  | Some (Mapping fields) =>
      Ok {| entries := entries constructor_data;
            objects := <[l := Mapping (dict_setitem "source_name" (PStr key) fields)]>
                         (objects constructor_data) |}
  | Some (Atom _) | None => Raise (AttributeError "object has no attribute 'update'")
  end.

(** What the validator returns: its argument, or a new [dict] whose one key
    ['source_model_config'] is bound to [constructor_data]. *)
Inductive Conformed : Type :=
| PassedThrough (data : RawMapping)
| SourceModelConfig (constructor_data : RawMapping).

Definition _conform_data (data : RawMapping) : result Conformed :=
  if dict_contains "source_model_config" (entries data) then Ok (PassedThrough data)
  else
    constructor_data ← for_in (dict_keys (entries data)) update_source_name (deepcopy data);
    Ok (SourceModelConfig constructor_data).

(** The specification a key of a mapping is bound to. *)
Definition entry_of (data : RawMapping) (key : string) : option object :=
  l ← dict_lookup key (entries data); objects data !! l.

(** The field ['source_name'] of the specification of [key]. *)
Definition source_name_of (data : RawMapping) (key : string) : option pyval :=
  match entry_of data key with
  | Some (Mapping fields) => dict_lookup "source_name" fields
  | _ => None
  end.

(** *** Validation of the field [source_model_config]

    The classes of the union [SourceModelConfig] are not among the sources:
    the table from a [source_name] to the validation of its class is a
    parameter. *)
Class SourceModels (SourceModelConfig : Type) : Type := {
  source_model_validate : string → option (dict pyval → result SourceModelConfig)
}.

Section Sources.
Context {SourceModelConfig : Type} `{SourceModels SourceModelConfig}.

(** The union discriminated by the field ['source_name']. *)
Definition validate_SourceModelConfig (fields : dict pyval) : result SourceModelConfig :=
  match dict_lookup "source_name" fields with
  | Some (PStr tag) =>
      match source_model_validate tag with
      | Some validate => validate fields
      | None => Raise (ValidationError "union_tag_invalid")
      end
  | Some _ => Raise (ValidationError "union_tag_invalid")
  | None => Raise (ValidationError "union_tag_not_found")
  end.

(** The specifications of a [constructor_data], in the order of its keys. *)
Definition specifications (constructor_data : RawMapping) : result (dict (dict pyval)) :=
  for_in (entries constructor_data)
    (λ acc '(key, l),
       match objects constructor_data !! l with
       | Some (Mapping fields) => Ok (acc ++ [(key, fields)])
       | _ => Raise (ValidationError "dict_type")
       end)
    [].

(** A mode ['before'] validator runs on the raw input, and the fields are
    validated from what it returns. This is the case in which it returns the
    new [dict]. *)
Definition validate_source_model_config (constructor_data : RawMapping)
  : result (dict SourceModelConfig) :=
  specs ← specifications constructor_data;
  for_in specs
    (λ acc '(key, fields), config ← validate_SourceModelConfig fields; Ok (acc ++ [(key, config)]))
    [].

End Sources.
End pydantic_model.

(** ** Instances on which the development is run

    The rationals as scalars, and sample implementations of the parameters. *)

Import geometry source_profiles_lib runtime_params_lib.
Import impurity_radiation_constant_fraction pydantic_model.

(** ** Notions the further properties are stated with *)

(** The last of the keys of a mapping, in its order, that is bound to the
    object at [l]. *)
Fixpoint last_key_bound_to (l : loc) (bindings : dict loc) : option string :=
  match bindings with
  | [] => None
  | (key, l') :: later =>
      match last_key_bound_to l later with
      | Some key' => Some key'
      | None => if l' =? l then Some key else None
      end
  end.

(** The values of a raw configuration that have no method [update]: all but
    a [dict]. *)
Definition has_no_update (value : pyval) : bool :=
  match value with
  | PDict _ => false
  | _ => true
  end.

(** A raw mapping one of whose entries is [None]. *)
Definition bootstrap_is_none : RawMapping := {|
  entries := [("gas_puff_source", 0); ("j_bootstrap", 1); ("pellet_source", 2)];
  objects := {[ 0 := Mapping []; 1 := Atom PNone; 2 := Mapping [] ]}
|}.

(** A mapping of profiles without the entries named as sinks. *)
Definition drop_sinks {A} (profiles : dict A) : dict A :=
  List.filter (λ entry, negb (str_contains "sink" entry.1)) profiles.

(** A container without the entries named as sinks, and a container with its
    two heat mappings exchanged. *)
Definition without_sinks {F} (csp : SourceProfiles F) : SourceProfiles F :=
  {| temp_el := drop_sinks (temp_el csp); temp_ion := drop_sinks (temp_ion csp) |}.

Definition exchanged_channels {F} (csp : SourceProfiles F) : SourceProfiles F :=
  {| temp_el := temp_ion csp; temp_ion := temp_el csp |}.

(** One more law of arithmetic: terms of a sum may change places. *)
Definition law_add_right_comm (F : Type) `{Scalar F} : Prop :=
  ∀ x y z : F, (x + y + z)%F = (x + z + y)%F.

(** A container with a source in both heat mappings, and one whose ohmic
    profile has three cells on a grid of four. *)
Definition both_channels : SourceProfiles Qc := {|
  temp_el :=
    [("generic_ion_el_heat_source", map Q2Qc [2 # 1; 2 # 1; 2 # 1; 2 # 1]);
     ("ohmic_heat_source", map Q2Qc [3 # 1; 3 # 1; 3 # 1; 3 # 1])];
  temp_ion :=
    [("generic_ion_el_heat_source", map Q2Qc [1 # 1; 2 # 1; 3 # 1; 4 # 1])]
|}.

Definition three_cell_ohmic : SourceProfiles Qc := {|
  temp_el :=
    [("generic_ion_el_heat_source", map Q2Qc [2 # 1; 2 # 1; 2 # 1; 2 # 1]);
     ("ohmic_heat_source", map Q2Qc [3 # 1; 3 # 1; 3 # 1])];
  temp_ion := []
|}.

#[global] Instance Qc_Scalar : Scalar Qc := {|
  fzero := 0%Qc;
  fone := 1%Qc;
  fadd := Qcplus;
  fsub := Qcminus;
  fmul := Qcmult;
  fdiv := Qcdiv;
  fneg := Qcopp;
  fleb := λ x y, Qle_bool x y
|}.

(** A sample [cell_integration]: the sum of the cell values times a uniform
    cell width, on arrays of the shape of the grid. *)
Definition uniform_cell_integration {F : Type} `{Scalar F} (drho : F)
    (x : jnp.array F) (geo : Geometry F) : result F :=
  if length x =? length (rho geo)
  then Ok (foldl (λ acc v, acc + v * drho)%F 0%F x)
  else Raise (ValueError "wrong shape").

(** four cells of width 1/4 *)
#[global] Instance Qc_MathUtils : MathUtils Qc := {|
  cell_integration := uniform_cell_integration (Q2Qc (1 # 4))
|}.

Definition four_cells : Geometry Qc := {|
  rho := map Q2Qc [1 # 8; 3 # 8; 5 # 8; 7 # 8];
  vpr := map Q2Qc [1 # 1; 1 # 1; 1 # 1; 1 # 1];
  volume_face := map Q2Qc [0 # 1; 1 # 4; 1 # 2; 3 # 4; 1 # 1]
|}.

Definition sink_name : string := "impurity_radiation_heat_sink".

Definition one_fifth : DynamicRuntimeParamsSlice Qc := {|
  sources :=
    [(sink_name, OfConstantFraction (Build_DynamicRuntimeParams (Q2Qc (1 # 5))))]
|}.

Definition two_heatings : SourceProfiles Qc := {|
  temp_el :=
    [("generic_ion_el_heat_source", map Q2Qc [2 # 1; 2 # 1; 2 # 1; 2 # 1]);
     ("ohmic_heat_source", map Q2Qc [3 # 1; 3 # 1; 3 # 1; 3 # 1]);
     ("bremsstrahlung_heat_sink", map Q2Qc [-1 # 1; -1 # 1; -1 # 1; -1 # 1])];
  temp_ion := []
|}.

Definition two_fifths : DynamicRuntimeParamsSlice Qc := {|
  sources :=
    [(sink_name, OfConstantFraction (Build_DynamicRuntimeParams (Q2Qc (2 # 5))))]
|}.


Definition fives : jnp.array Qc := map Q2Qc [5 # 1; 5 # 1; 5 # 1; 5 # 1].

(** Sample validators: a time-varying scalar given as one number, a mode
    given by its name, and a mavrin-fit class that keeps the raw mapping. *)
#[global] Instance constant_ToraxPydantic : ToraxPydantic float := {|
  validate_TimeVaryingScalar v :=
    match v with
    | PFloat x => Ok x
    | _ => Raise (ValidationError "float_type")
    end;
  validate_Mode v :=
    match v with
    | PStr "ZERO" => Ok ZERO
    | PStr "MODEL_BASED" => Ok MODEL_BASED
    | PStr "PRESCRIBED" => Ok PRESCRIBED
    | _ => Raise (ValidationError "enum")
    end
|}.

#[global] Instance raw_MavrinFitModule : MavrinFitModule (dict pyval) := {|
  mavrin_fit_model_validate raw := Ok raw
|}.

(** A provider whose fraction rises from 1/10 at time 0 to 3/10 at time 2. *)
Definition rising_fraction : RuntimeParamsProvider Qc := {|
  provider_fraction_of_total_power_density := {|
    first_sample := (Q2Qc (0 # 1), Q2Qc (1 # 10));
    later_samples := [(Q2Qc (2 # 1), Q2Qc (3 # 10))];
    interpolation_mode := PIECEWISE_LINEAR
  |}
|}.

(** Two source names bound to one and the same empty specification. *)
Definition shared_specification : RawMapping := {|
  entries := [("gas_puff_source", 0); ("pellet_source", 0)];
  objects := {[ 0 := Mapping [] ]}
|}.

(** The same two names, each bound to an empty specification of its own. *)
Definition separate_specifications : RawMapping := {|
  entries := [("gas_puff_source", 0); ("pellet_source", 1)];
  objects := {[ 0 := Mapping []; 1 := Mapping [] ]}
|}.

(** A raw specification that names the constant-fraction model and nothing
    else, and one that names no model. *)
Definition constant_fraction_only : dict pyval :=
  [("model_func", PStr "radially_constant_fraction_of_Pin")].

Definition no_model_func : dict pyval := [("mode", PStr "ZERO")].

(** A sample table of two source classes; a validated configuration records
    the class that validated it and the fields it was given. *)
#[global] Instance two_SourceModels : SourceModels (string * dict pyval) := {|
  source_model_validate tag :=
    if (String.eqb tag "gas_puff_source" || String.eqb tag "pellet_source")%bool
    then Some (λ fields, Ok (tag, fields))
    else None
|}.

(** Binary64 floating point as scalars, and the four cells again. *)
#[global] Instance float_Scalar : Scalar float := {|
  fzero := 0%float;
  fone := 1%float;
  fadd := PrimFloat.add;
  fsub := PrimFloat.sub;
  fmul := PrimFloat.mul;
  fdiv := PrimFloat.div;
  fneg := PrimFloat.opp;
  fleb := PrimFloat.leb
|}.

#[global] Instance float_MathUtils : MathUtils float := {|
  cell_integration := uniform_cell_integration 0.25%float
|}.

Definition four_cells_binary64 : Geometry float := {|
  rho := [0.125; 0.375; 0.625; 0.875]%float;
  vpr := [1; 1; 1; 1]%float;
  volume_face := [0; 0.25; 0.5; 0.75; 1]%float
|}.

Definition one_fifth_binary64 : DynamicRuntimeParamsSlice float := {|
  sources := [(sink_name, OfConstantFraction (Build_DynamicRuntimeParams 0.2%float))]
|}.

Definition two_heatings_binary64 : SourceProfiles float := {|
  temp_el :=
    [("generic_ion_el_heat_source", [2; 2; 2; 2]%float);
     ("ohmic_heat_source", [3; 3; 3; 3]%float);
     ("bremsstrahlung_heat_sink", [-1; -1; -1; -1]%float)];
  temp_ion := []
|}.

(** A slice without parameters for the sink, two slices whose fraction lies
    outside [0, 1), and binary64 arguments with an empty container. *)
Definition no_parameters : DynamicRuntimeParamsSlice Qc := {| sources := [] |}.

Definition seven_halves : DynamicRuntimeParamsSlice Qc := {|
  sources :=
    [(sink_name, OfConstantFraction (Build_DynamicRuntimeParams (Q2Qc (7 # 2))))]
|}.

Definition minus_three_halves : DynamicRuntimeParamsSlice Qc := {|
  sources :=
    [(sink_name, OfConstantFraction (Build_DynamicRuntimeParams (Q2Qc (-3 # 2))))]
|}.



(** * Properties *)

(** ** Python values *)

Lemma dict_getitem_Some {V} (d : dict V) k v :
  dict_lookup k d = Some v → dict_getitem d k = Ok v.
Proof. unfold dict_getitem. now intros ->. Qed.

Lemma dict_lookup_keys {V} (d : dict V) k :
  k ∈ dict_keys d → ∃ v, dict_lookup k d = Some v.
Proof.
  induction d as [|[k' v'] d IH]; simpl.
  - intros Hk. apply elem_of_nil in Hk. destruct Hk.
  - intros Hk. destruct (String.eqb_spec k k') as [->|Hne]; [eauto|].
    apply elem_of_cons in Hk as [?|Hk]; [congruence|]. auto.
Qed.

(** A key of a well-formed dictionary is bound to the value it is listed with. *)
Lemma dict_lookup_item {V} (d : dict V) k v :
  NoDup (dict_keys d) → (k, v) ∈ d → dict_lookup k d = Some v.
Proof.
  induction d as [|[k' v'] d IH]; simpl; intros Hnd Hin.
  - apply elem_of_nil in Hin. destruct Hin.
  - apply NoDup_cons in Hnd as [Hk' Hnd].
    apply elem_of_cons in Hin as [Heq|Hin].
    + inversion Heq; subst. now rewrite String.eqb_refl.
    + destruct (String.eqb_spec k k') as [->|Hne]; [|auto].
      exfalso. apply Hk'. unfold dict_keys.
      apply list_elem_of_fmap. now exists (k', v).
Qed.

(** ** Arrays *)

Section ArrayProperties.
Context {F : Type} `{Scalar F}.

Lemma length_zeros_like (a : jnp.array F) : length (jnp.zeros_like a) = length a.
Proof. apply length_replicate. Qed.

Lemma broadcast_same_length op (a b : jnp.array F) :
  length a = length b → jnp.broadcast op a b = Ok (zip_with op a b).
Proof. intros Hl. unfold jnp.broadcast. now rewrite Hl, Nat.eqb_refl. Qed.

Lemma scale_ones_like (c : F) (a : jnp.array F) :
  jnp.scale c (jnp.ones_like a) = replicate (length a) (c * 1)%F.
Proof. unfold jnp.scale, jnp.ones_like. apply fmap_replicate. Qed.

Lemma zip_with_zeros_l (n : nat) (b : jnp.array F) :
  law_add_zero_l F → length b = n → zip_with fadd (replicate n 0%F) b = b.
Proof.
  intros Hlaw. revert n. induction b as [|x b IH]; intros [|n] Hl; simpl in *; try lia.
  - reflexivity.
  - rewrite Hlaw. f_equal. apply IH. lia.
Qed.

Lemma zip_with_mul_zeros_l (n : nat) (b : jnp.array F) :
  law_mul_zero_l F → length b = n → zip_with fmul (replicate n 0%F) b = replicate n 0%F.
Proof.
  intros Hlaw. revert n. induction b as [|x b IH]; intros [|n] Hl; simpl in *; try lia.
  - reflexivity.
  - rewrite Hlaw. f_equal. apply IH. lia.
Qed.

End ArrayProperties.

(** ** The model function *)

Lemma for_in_app {A B} (xs ys : list B) (body : A → B → result A) (acc : A) :
  for_in (xs ++ ys) body acc = (acc' ← for_in xs body acc; for_in ys body acc').
Proof.
  revert acc. induction xs as [|x xs IH]; intros acc; simpl; [reflexivity|].
  destruct (body acc x); simpl; auto.
Qed.

Section ModelProperties.
Context {F : Type} `{Scalar F} `{MathUtils F}.

Implicit Types (geo : Geometry F) (csp : SourceProfiles F).
Implicit Types (dyn : DynamicRuntimeParamsSlice F) (p : DynamicRuntimeParams F).

(** The sink density [- fraction * P / V] *)
#[local] Abbreviation density p P V := (- fraction_of_total_power_density p * P / V)%F.

(** Once the parameters of the source are found, the call is the chain of the
    aggregate, its integral, the total volume and the broadcast. *)
Lemma radially_constant_fraction_of_Pin_present static dyn geo name core csp p :
  dict_lookup name (sources dyn) = Some (OfConstantFraction p) →
  radially_constant_fraction_of_Pin static dyn geo name core (Some csp) =
    (Q ← Qtot_in geo csp;
     P ← Ptot_in geo Q;
     V ← jnp.getitem_last (volume_face geo);
     Ok [replicate (length (rho geo)) (density p P V * 1)%F]).
Proof.
  intros Hp. unfold radially_constant_fraction_of_Pin.
  rewrite (dict_getitem_Some _ _ _ Hp). simpl.
  destruct (Qtot_in geo csp) as [Q|]; simpl; [|reflexivity].
  destruct (Ptot_in geo Q) as [P|]; simpl; [|reflexivity].
  destruct (jnp.getitem_last (volume_face geo)) as [V|]; simpl; [|reflexivity].
  now rewrite scale_ones_like.
Qed.

(** A call that returns went through every step of the chain. *)
Lemma radially_constant_fraction_of_Pin_Ok static dyn geo name core ocsp profiles :
  radially_constant_fraction_of_Pin static dyn geo name core ocsp = Ok profiles →
  ∃ p csp Q P V,
    dict_lookup name (sources dyn) = Some (OfConstantFraction p)
    ∧ ocsp = Some csp
    ∧ Qtot_in geo csp = Ok Q
    ∧ Ptot_in geo Q = Ok P
    ∧ last (volume_face geo) = Some V
    ∧ profiles = [replicate (length (rho geo)) (density p P V * 1)%F].
Proof.
  unfold radially_constant_fraction_of_Pin, dict_getitem.
  destruct (dict_lookup name (sources dyn)) as [[p|]|] eqn:Hp; simpl; try discriminate.
  destruct ocsp as [csp|]; [|discriminate].
  destruct (Qtot_in geo csp) as [Q|] eqn:HQ; simpl; [|discriminate].
  destruct (Ptot_in geo Q) as [P|] eqn:HP; simpl; [|discriminate].
  unfold jnp.getitem_last.
  destruct (last (volume_face geo)) as [V|] eqn:HV; simpl; [|discriminate].
  intros [= <-]. exists p, csp, Q, P, V. rewrite scale_ones_like. auto 10.
Qed.

(** C1. With the container present, the returned profile is
    [- fraction * P_in / V_tot] at every cell, where [P_in] is the cell
    integration of [Q_in * geo.vpr] and [V_tot] is [geo.volume_face[-1]]. *)
Theorem sink_profile_is_uniform static dyn geo name core csp p Q weighted P V :
  law_mul_one_r F →
  dict_lookup name (sources dyn) = Some (OfConstantFraction p) →
  Qtot_in geo csp = Ok Q →
  jnp.multiply Q (vpr geo) = Ok weighted →
  cell_integration weighted geo = Ok P →
  last (volume_face geo) = Some V →
  ∃ profile,
    radially_constant_fraction_of_Pin static dyn geo name core (Some csp) = Ok [profile]
    ∧ length profile = length (rho geo)
    ∧ ∀ i, i < length (rho geo) → profile !! i = Some (density p P V).
Proof.
  intros Hone Hp HQ Hw HP HV.
  exists (replicate (length (rho geo)) (density p P V)). split; [|split].
  - rewrite (radially_constant_fraction_of_Pin_present _ _ _ _ _ _ _ Hp), HQ. simpl.
    unfold Ptot_in. rewrite Hw. simpl. rewrite HP. simpl.
    unfold jnp.getitem_last. rewrite HV. simpl.
    now rewrite Hone.
  - apply length_replicate.
  - intros i Hi. now apply lookup_replicate_2.
Qed.

(** Without the container the call raises, and which exception depends on
    the parameters of the source alone. *)
Lemma radially_constant_fraction_of_Pin_None static dyn geo name core :
  radially_constant_fraction_of_Pin static dyn geo name core None =
    match dict_lookup name (sources dyn) with
    | None => Raise (KeyError name)
    | Some OfAnotherSource => Raise AssertionError
    | Some (OfConstantFraction _) => Raise (ValueError missing_profiles_message)
    end.
Proof.
  unfold radially_constant_fraction_of_Pin, dict_getitem.
  now destruct (dict_lookup name (sources dyn)) as [[p|]|].
Qed.

(** C3. Without the container the call never returns a value; called for a
    source whose dynamic parameters are those of this model, it raises the
    [ValueError] whose message names [radially_constant_fraction_of_Pin],
    whatever the geometry. *)
Theorem missing_profiles_is_an_error static dyn geo name core :
  (∀ profiles,
     radially_constant_fraction_of_Pin static dyn geo name core None ≠ Ok profiles)
  ∧ (∀ p,
       dict_lookup name (sources dyn) = Some (OfConstantFraction p) →
       radially_constant_fraction_of_Pin static dyn geo name core None
         = Raise (ValueError missing_profiles_message))
  ∧ str_contains MODEL_FUNCTION_NAME missing_profiles_message = true.
Proof.
  unfold radially_constant_fraction_of_Pin, dict_getitem. split; [|split].
  - intros profiles. now destruct (dict_lookup name (sources dyn)) as [[p|]|].
  - now intros p ->.
  - reflexivity.
Qed.

(** C5. A call that returns, returns a tuple of one array of the shape of the
    grid: the contribution to the electron heat equation, and to no other. *)
Theorem returns_one_electron_heat_profile static dyn geo name core ocsp profiles :
  radially_constant_fraction_of_Pin static dyn geo name core ocsp = Ok profiles →
  ∃ profile,
    profiles = [profile]
    ∧ length profile = length (rho geo)
    ∧ contributions profiles = [(TEMP_EL, profile)].
Proof.
  intros Hok.
  apply radially_constant_fraction_of_Pin_Ok in Hok
    as (p & csp & Q & P & V & _ & _ & _ & _ & _ & ->).
  eexists. split; [reflexivity|]. split; [apply length_replicate|reflexivity].
Qed.

(** Two calls that differ in the fraction alone raise the same exception, when
    one of them raises: no exception depends on the fraction. *)
Lemma exceptions_do_not_depend_on_the_fraction static dyn1 dyn2 geo name core csp p1 p2 e :
  dict_lookup name (sources dyn1) = Some (OfConstantFraction p1) →
  dict_lookup name (sources dyn2) = Some (OfConstantFraction p2) →
  radially_constant_fraction_of_Pin static dyn1 geo name core (Some csp) = Raise e →
  radially_constant_fraction_of_Pin static dyn2 geo name core (Some csp) = Raise e.
Proof.
  intros Hp1 Hp2.
  rewrite (radially_constant_fraction_of_Pin_present _ _ _ _ _ _ _ Hp1).
  rewrite (radially_constant_fraction_of_Pin_present _ _ _ _ _ _ _ Hp2).
  destruct (Qtot_in geo csp) as [Q|]; simpl; [|auto].
  destruct (Ptot_in geo Q) as [P|]; simpl; [|auto].
  destruct (jnp.getitem_last (volume_face geo)) as [V|]; simpl; [discriminate|auto].
Qed.

(** C6. The fraction is neither clamped nor checked. Where the aggregate, its
    integral and the total volume are computed, none of which reads the
    fraction, the call raises no error for any fraction, inside [0, 1) or
    outside: it returns the array that is [- fraction * P_in / V_tot] at
    every cell. *)
Theorem fraction_is_applied_unchecked static geo name core csp Q weighted P V :
  law_mul_one_r F →
  Qtot_in geo csp = Ok Q →
  jnp.multiply Q (vpr geo) = Ok weighted →
  cell_integration weighted geo = Ok P →
  last (volume_face geo) = Some V →
  ∀ fraction dyn,
    dict_lookup name (sources dyn)
      = Some (OfConstantFraction (Build_DynamicRuntimeParams fraction)) →
    radially_constant_fraction_of_Pin static dyn geo name core (Some csp)
      = Ok [replicate (length (rho geo)) (- fraction * P / V)%F].
Proof.
  intros Hone HQ Hw HP HV fraction dyn Hp.
  rewrite (radially_constant_fraction_of_Pin_present _ _ _ _ _ _ _ Hp), HQ. simpl.
  unfold Ptot_in. rewrite Hw. simpl. rewrite HP. simpl.
  unfold jnp.getitem_last. rewrite HV. simpl.
  now rewrite Hone.
Qed.

(** One loop adds the profiles of the entries not named as sinks, in order. *)
Lemma add_heating_inputs_sum_onto (profiles : dict (jnp.array F)) (start : jnp.array F) :
  NoDup (dict_keys profiles) →
  add_heating_inputs profiles start = sum_onto start (heating_inputs profiles).
Proof.
  intros Hnd. unfold add_heating_inputs, sum_onto, heating_inputs.
  assert (Hsub : ∀ k v, (k, v) ∈ profiles → dict_lookup k profiles = Some v)
    by (intros k v; now apply dict_lookup_item).
  revert Hsub start. generalize profiles at 1 3 5 as rest.
  induction rest as [|[k v] rest IH]; intros Hsub start; simpl; [reflexivity|].
  assert (Hrest : ∀ k' v', (k', v') ∈ rest → dict_lookup k' profiles = Some v')
    by (intros k' v' Hin; apply Hsub; now right).
  destruct (str_contains "sink" k); simpl.
  - now apply IH.
  - rewrite (dict_getitem_Some profiles k v) by (apply Hsub; left). simpl.
    destruct (jnp.add start v); simpl; [now apply IH|reflexivity].
Qed.

(** A sink entry of any value and shape leaves the sum as it is. *)
Lemma heating_inputs_skip_sink (name : string) (s : jnp.array F)
    (before after : dict (jnp.array F)) :
  str_contains "sink" name = true →
  heating_inputs (before ++ (name, s) :: after) = heating_inputs (before ++ after).
Proof.
  intros Hsink. unfold heating_inputs.
  rewrite !List.filter_app. simpl. now rewrite Hsink.
Qed.

(** The two loops in a row: the sum over the entries of the electron heat
    mapping and then of the ion heat mapping. *)
Lemma Qtot_in_sum_onto geo csp :
  NoDup (dict_keys (temp_el csp)) →
  NoDup (dict_keys (temp_ion csp)) →
  Qtot_in geo csp =
    sum_onto (jnp.zeros_like (rho geo))
      (heating_inputs (temp_el csp) ++ heating_inputs (temp_ion csp)).
Proof.
  intros Hel Hion. unfold Qtot_in, sum_onto. rewrite for_in_app.
  rewrite (add_heating_inputs_sum_onto _ _ Hel). unfold sum_onto at 1.
  destruct (for_in _ _ _) as [acc|]; simpl; [|reflexivity].
  now rewrite (add_heating_inputs_sum_onto _ _ Hion).
Qed.

(** C2. [Q_in] is the elementwise sum, onto zeros, of the entries of the
    electron heat mapping and then of the ion heat mapping whose name is not
    marked as a sink; for the entries [{A: a, B: b, sinkX: s}] of either
    mapping (the other one empty) it is [a + b], whatever [s] is. *)
Theorem Qtot_in_sums_the_heating_inputs geo csp :
  NoDup (dict_keys (temp_el csp)) →
  NoDup (dict_keys (temp_ion csp)) →
  Qtot_in geo csp =
    sum_onto (jnp.zeros_like (rho geo))
      (heating_inputs (temp_el csp) ++ heating_inputs (temp_ion csp))
  ∧ ∀ A B sinkX a b s,
      law_add_zero_l F →
      str_contains "sink" A = false →
      str_contains "sink" B = false →
      str_contains "sink" sinkX = true →
      length a = length (rho geo) →
      length b = length (rho geo) →
      (temp_el csp = [(A, a); (B, b); (sinkX, s)] ∧ temp_ion csp = []
       ∨ temp_el csp = [] ∧ temp_ion csp = [(A, a); (B, b); (sinkX, s)]) →
      Qtot_in geo csp = Ok (zip_with fadd a b).
Proof.
  intros Hel Hion.
  pose proof (Qtot_in_sum_onto geo csp Hel Hion) as Heq.
  split; [exact Heq|].
  intros A B sinkX a b s Hzero HA HB HS Ha Hb Hcase.
  assert (Hin : heating_inputs (temp_el csp) ++ heating_inputs (temp_ion csp) = [a; b]).
  { unfold heating_inputs.
    destruct Hcase as [[-> ->]|[-> ->]]; simpl; now rewrite HA, HB, HS. }
  rewrite Heq, Hin. unfold sum_onto, jnp.zeros_like, jnp.add. simpl.
  rewrite broadcast_same_length by (now rewrite length_replicate). simpl.
  rewrite zip_with_zeros_l by (assumption || reflexivity || auto).
  now rewrite broadcast_same_length by congruence.
Qed.

(** Adding arrays of the shape of the start succeeds and keeps the shape. *)
Lemma sum_onto_same_shape (start : jnp.array F) (terms : list (jnp.array F)) :
  Forall (λ term, length term = length start) terms →
  ∃ total, sum_onto start terms = Ok total ∧ length total = length start.
Proof.
  unfold sum_onto. revert start.
  induction terms as [|term terms IH]; intros start Hterms; simpl; [eauto|].
  apply Forall_cons in Hterms as [Hterm Hterms].
  replace (jnp.add start term) with (Ok (zip_with fadd start term))
    by (symmetry; apply broadcast_same_length; congruence).
  simpl.
  assert (Hl : length (zip_with fadd start term) = length start)
    by (rewrite length_zip_with; lia).
  destruct (IH (zip_with fadd start term)) as (total & Htotal & Hlen).
  - eapply Forall_impl; [exact Hterms|]. simpl. intros; congruence.
  - exists total. split; [assumption|congruence].
Qed.

(** On a well-formed container whose heating inputs are per-cell arrays the
    aggregate is computed, and it is a per-cell array. *)
Lemma Qtot_in_well_shaped geo csp :
  NoDup (dict_keys (temp_el csp)) →
  NoDup (dict_keys (temp_ion csp)) →
  Forall (λ q, length q = length (rho geo)) (heating_inputs (temp_el csp)) →
  Forall (λ q, length q = length (rho geo)) (heating_inputs (temp_ion csp)) →
  ∃ Q, Qtot_in geo csp = Ok Q ∧ length Q = length (rho geo).
Proof.
  intros Hel Hion Hsel Hsion.
  rewrite (Qtot_in_sum_onto geo csp Hel Hion).
  rewrite <- (length_zeros_like (rho geo)).
  apply sum_onto_same_shape. rewrite length_zeros_like.
  apply Forall_app. now split.
Qed.

(** The call returns on well-formed arguments: the parameters of the source
    in the slice, per-cell heating inputs and [vpr], a volume with at least
    one face, and an integration defined on per-cell arrays. *)
Lemma radially_constant_fraction_of_Pin_returns static dyn geo name core csp p :
  dict_lookup name (sources dyn) = Some (OfConstantFraction p) →
  NoDup (dict_keys (temp_el csp)) →
  NoDup (dict_keys (temp_ion csp)) →
  Forall (λ q, length q = length (rho geo)) (heating_inputs (temp_el csp)) →
  Forall (λ q, length q = length (rho geo)) (heating_inputs (temp_ion csp)) →
  length (vpr geo) = length (rho geo) →
  (∀ x, length x = length (rho geo) → ∃ P, cell_integration x geo = Ok P) →
  volume_face geo ≠ [] →
  ∃ P V,
    radially_constant_fraction_of_Pin static dyn geo name core (Some csp)
      = Ok [replicate (length (rho geo)) (density p P V * 1)%F].
Proof.
  intros Hp Hel Hion Hsel Hsion Hvpr Hint Hvol.
  destruct (Qtot_in_well_shaped geo csp Hel Hion Hsel Hsion) as (Q & HQ & HlQ).
  rewrite (radially_constant_fraction_of_Pin_present _ _ _ _ _ _ _ Hp), HQ. simpl.
  unfold Ptot_in, jnp.multiply. rewrite broadcast_same_length by congruence. simpl.
  destruct (Hint (zip_with fmul Q (vpr geo))) as [P HP].
  { rewrite length_zip_with; lia. }
  rewrite HP. simpl. unfold jnp.getitem_last.
  destruct (last (volume_face geo)) as [V|] eqn:HV.
  - simpl. now exists P, V.
  - apply last_None in HV. contradiction.
Qed.


End ModelProperties.

(** ** The configuration class and the discriminated union *)

Section ConfigProperties.
Context {MavrinFitConfig TimeVaryingScalar : Type}.
Context `{MavrinFitModule MavrinFitConfig} `{ToraxPydantic TimeVaryingScalar}.

Lemma validate_Literal_Ok lit v s : validate_Literal lit v = Ok s → s = lit.
Proof.
  destruct v; simpl; try discriminate.
  destruct (String.eqb_spec s0 lit); [|discriminate]. congruence.
Qed.

Lemma validate_field_Literal_Ok raw name lit s :
  validate_field raw name (validate_Literal lit) (Ok lit) = Ok s → s = lit.
Proof.
  unfold validate_field. destruct (dict_lookup name raw).
  - apply validate_Literal_Ok.
  - congruence.
Qed.

(** What a validated configuration holds. *)
Lemma model_validate_Ok raw (config : ImpurityRadiationHeatSinkConstantFractionConfig TimeVaryingScalar) :
  model_validate raw = Ok config →
  source_name config = "impurity_radiation_heat_sink"
  ∧ model_func config = "radially_constant_fraction_of_Pin"
  ∧ (dict_lookup "fraction_of_total_power_density" raw = None →
       validate_TimeVaryingScalar (PFloat 0.1%float)
         = Ok (config_fraction_of_total_power_density config))
  ∧ (dict_lookup "mode" raw = None → mode config = MODEL_BASED).
Proof.
  unfold model_validate.
  destruct (validate_field raw "source_name" _ _) as [sn|] eqn:Hsn; simpl; [|discriminate].
  destruct (validate_field raw "model_func" _ _) as [mf|] eqn:Hmf; simpl; [|discriminate].
  destruct (validate_field raw "fraction_of_total_power_density" _ _) as [fr|] eqn:Hfr;
    simpl; [|discriminate].
  destruct (validate_field raw "mode" _ _) as [md|] eqn:Hmd; simpl; [|discriminate].
  intros [= <-]. simpl.
  apply validate_field_Literal_Ok in Hsn, Hmf.
  repeat split; try assumption.
  - intros Hnone. unfold validate_field in Hfr. now rewrite Hnone in Hfr.
  - intros Hnone. unfold validate_field in Hmd. rewrite Hnone in Hmd. congruence.
Qed.

(** C10. A raw specification that resolves to the constant-fraction variant
    gives a configuration whose [source_name] and [model_func] are the two
    literals, whose fraction is the validated default 0.1 when the
    specification leaves it out, and whose mode is [MODEL_BASED] when the
    specification leaves it out. *)
Theorem constant_fraction_config_fields (raw : dict pyval)
    (config : ImpurityRadiationHeatSinkConstantFractionConfig TimeVaryingScalar) :
  validate_ImpurityRadiationHeatSinkConfig (MavrinFitConfig := MavrinFitConfig) raw
    = Ok (ConstantFraction config) →
  source_name config = "impurity_radiation_heat_sink"
  ∧ model_func config = "radially_constant_fraction_of_Pin"
  ∧ (dict_lookup "fraction_of_total_power_density" raw = None →
       validate_TimeVaryingScalar (PFloat 0.1%float)
         = Ok (config_fraction_of_total_power_density config))
  ∧ (dict_lookup "mode" raw = None → mode config = MODEL_BASED).
Proof.
  unfold validate_ImpurityRadiationHeatSinkConfig, variant_of_tag.
  destruct (get_impurity_heat_sink_discriminator_value raw) as [| | | |tag| |];
    try discriminate.
  destruct (String.eqb tag "impurity_radiation_mavrin_fit").
  - destruct (mavrin_fit_model_validate raw); discriminate.
  - destruct (String.eqb tag "radially_constant_fraction_of_Pin"); [|discriminate].
    destruct (model_validate raw) as [config'|] eqn:Hv; simpl; [|discriminate].
    intros [= <-]. now apply model_validate_Ok.
Qed.

(** C4. The discriminator is the value of ['model_func'] as it stands when
    the raw mapping has the key and ['impurity_radiation_mavrin_fit'] when it
    has not; the mapping is validated against the variant this tag selects,
    so that without the key it is the mavrin-fit class that validates it,
    and with an unknown tag no class does. *)
Theorem discriminator_is_model_func_or_mavrin_fit (raw : dict pyval) :
  get_impurity_heat_sink_discriminator_value raw =
    match dict_lookup "model_func" raw with
    | Some tag => tag
    | None => PStr "impurity_radiation_mavrin_fit"
    end
  ∧ (dict_lookup "model_func" raw = None →
       validate_ImpurityRadiationHeatSinkConfig (TimeVaryingScalar := TimeVaryingScalar) raw
         = MavrinFit <$> mavrin_fit_model_validate raw)
  ∧ (dict_lookup "model_func" raw = Some (PStr "radially_constant_fraction_of_Pin") →
       validate_ImpurityRadiationHeatSinkConfig (MavrinFitConfig := MavrinFitConfig) raw
         = ConstantFraction <$> model_validate raw)
  ∧ (∀ tag,
       dict_lookup "model_func" raw = Some tag →
       tag ≠ PStr "impurity_radiation_mavrin_fit" →
       tag ≠ PStr "radially_constant_fraction_of_Pin" →
       validate_ImpurityRadiationHeatSinkConfig
           (MavrinFitConfig := MavrinFitConfig) (TimeVaryingScalar := TimeVaryingScalar) raw
         = Raise (ValidationError "union_tag_invalid")).
Proof.
  unfold validate_ImpurityRadiationHeatSinkConfig,
    get_impurity_heat_sink_discriminator_value, dict_get.
  split; [reflexivity|]. split; [|split].
  - now intros ->.
  - now intros ->.
  - intros tag -> Hm Hc. destruct tag as [| | | |tag| |]; try reflexivity. simpl.
    destruct (String.eqb_spec tag "impurity_radiation_mavrin_fit") as [->|_];
      [now destruct Hm|].
    destruct (String.eqb_spec tag "radially_constant_fraction_of_Pin") as [->|_];
      [now destruct Hc|reflexivity].
Qed.

End ConfigProperties.

(** ** The runtime parameters provider *)

Section ProviderProperties.
Context {F : Type} `{Scalar F}.

(** The method adds no effect to those of the inherited helper. *)
Lemma build_dynamic_params_with_state helper (self : RuntimeParamsProvider F) (t : F) :
  (build_dynamic_params_with helper self t).2 = (helper self t).2.
Proof. unfold build_dynamic_params_with. now destruct (helper self t). Qed.

(** What the method returns over the helper modelled from the spec. *)
Lemma build_dynamic_params_value (self : RuntimeParamsProvider F) (t : F) :
  build_dynamic_params self t =
    (Ok (Build_DynamicRuntimeParams
           (get_value (provider_fraction_of_total_power_density self) t)),
     self).
Proof. reflexivity. Qed.

End ProviderProperties.

(** ** [Sources._conform_data] *)

Lemma conform_data_passes_through (data : RawMapping) :
  dict_contains "source_model_config" (entries data) = true →
  _conform_data data = Ok (PassedThrough data).
Proof. unfold _conform_data. now intros ->. Qed.

Lemma update_source_name_Mapping (cd : RawMapping) key l fields :
  dict_lookup key (entries cd) = Some l →
  objects cd !! l = Some (Mapping fields) →
  update_source_name cd key =
    Ok {| entries := entries cd;
          objects := <[l := Mapping (dict_setitem "source_name" (PStr key) fields)]>
                       (objects cd) |}.
Proof.
  intros Hl Hobj. unfold update_source_name.
  rewrite (dict_getitem_Some _ _ _ Hl). simpl. now rewrite Hobj.
Qed.

Lemma dict_lookup_setitem_eq {V} k (v : V) d : dict_lookup k (dict_setitem k v d) = Some v.
Proof.
  induction d as [|[k' v'] d IH]; simpl.
  - now rewrite String.eqb_refl.
  - destruct (String.eqb_spec k k') as [->|Hne]; simpl.
    + now rewrite String.eqb_refl.
    + destruct (String.eqb_spec k k'); [congruence|assumption].
Qed.

(** The loop over a part of the keys, none of whose objects is bound twice:
    each object gets the name of its key, every other object is as before. *)
Lemma update_source_names (rest : dict loc) (cd : RawMapping) :
  (∀ k l, (k, l) ∈ rest → dict_lookup k (entries cd) = Some l) →
  NoDup (snd <$> rest) →
  (∀ k l, (k, l) ∈ rest → ∃ fields, objects cd !! l = Some (Mapping fields)) →
  ∃ cd',
    for_in (dict_keys rest) update_source_name cd = Ok cd'
    ∧ entries cd' = entries cd
    ∧ (∀ k l fields,
         (k, l) ∈ rest →
         objects cd !! l = Some (Mapping fields) →
         objects cd' !! l
           = Some (Mapping (dict_setitem "source_name" (PStr k) fields)))
    ∧ (∀ l, l ∉ snd <$> rest → objects cd' !! l = objects cd !! l).
Proof.
  revert cd. induction rest as [|[k l] rest IH]; intros cd Hkeys Hnd Hmap; simpl.
  - exists cd. repeat split; auto. intros k l fields Hin. now apply elem_of_nil in Hin.
  - apply NoDup_cons in Hnd as [Hl Hnd].
    destruct (Hmap k l) as [fields Hfields]; [left|].
    rewrite (update_source_name_Mapping cd k l fields) by (auto; apply Hkeys; left).
    simpl. set (cd1 := {| entries := entries cd; objects := _ |}).
    destruct (IH cd1) as (cd' & Hloop & Hentries & Hnamed & Hother).
    + intros k' l' Hin. simpl. apply Hkeys. now right.
    + assumption.
    + intros k' l' Hin. simpl.
      assert (l' ≠ l).
      { intros ->. apply Hl. apply list_elem_of_fmap. now exists (k', l). }
      rewrite lookup_insert_ne by auto. apply (Hmap k'). now right.
    + exists cd'. split; [assumption|]. split; [now rewrite Hentries|]. split.
      * intros k' l' fields' Hin Hobj.
        apply elem_of_cons in Hin as [[= -> ->]|Hin].
        -- rewrite Hother by assumption. simpl. rewrite lookup_insert_eq.
           congruence.
        -- assert (l' ≠ l).
           { intros ->. apply Hl. apply list_elem_of_fmap. now exists (k', l). }
           apply Hnamed; [assumption|]. simpl. now rewrite lookup_insert_ne by auto.
      * intros l' Hl'. rewrite Hother.
        -- simpl. apply lookup_insert_ne. intros ->. apply Hl'. now left.
        -- intros Hin. apply Hl'. now right.
Qed.

(** Where no two keys are bound to one object, every specification receives
    the name of its own key, and the validator's argument passes through
    when it has the key ['source_model_config']. *)
Lemma conform_data_names_separate_entries (data : RawMapping) :
  NoDup (dict_keys (entries data)) →
  NoDup (snd <$> entries data) →
  (∀ k l, (k, l) ∈ entries data → ∃ fields, objects data !! l = Some (Mapping fields)) →
  if dict_contains "source_model_config" (entries data)
  then _conform_data data = Ok (PassedThrough data)
  else ∃ constructor_data,
    _conform_data data = Ok (SourceModelConfig constructor_data)
    ∧ dict_keys (entries constructor_data) = dict_keys (entries data)
    ∧ ∀ key, key ∈ dict_keys (entries data) →
        source_name_of constructor_data key = Some (PStr key).
Proof.
  intros Hkeys Hlocs Hmap. unfold _conform_data.
  destruct (dict_contains _ _); [reflexivity|].
  destruct (update_source_names (entries data) (deepcopy data))
    as (cd & Hloop & Hentries & Hnamed & _); simpl; auto.
  { intros k l Hin. now apply dict_lookup_item. }
  exists cd. rewrite Hloop. simpl in *. split; [reflexivity|].
  split; [now rewrite Hentries|].
  intros key Hkey. unfold dict_keys in Hkey.
  apply list_elem_of_fmap in Hkey as ([k l] & -> & Hin). simpl.
  destruct (Hmap k l Hin) as [fields Hfields].
  unfold source_name_of, entry_of. rewrite Hentries.
  rewrite (dict_lookup_item _ _ _ Hkeys Hin). simpl.
  rewrite (Hnamed k l fields Hin Hfields). apply dict_lookup_setitem_eq.
Qed.

(** C8. Two keys bound to one specification: the copy keeps them bound to one
    object, the loop updates that object once per key, and both entries end
    with the name of the later key. The argument itself is left as it was. *)
Theorem conform_data_shared_specification :
  ∃ constructor_data,
    _conform_data shared_specification = Ok (SourceModelConfig constructor_data)
    ∧ source_name_of constructor_data "gas_puff_source" = Some (PStr "pellet_source")
    ∧ source_name_of constructor_data "pellet_source" = Some (PStr "pellet_source")
    ∧ source_name_of shared_specification "gas_puff_source" = None.
Proof. eexists. split; [reflexivity|]. repeat split. Qed.

(** * The development run on the rationals *)

Lemma Qc_add_zero_l : law_add_zero_l Qc.
Proof. exact Qcplus_0_l. Qed.

Lemma Qc_mul_one_r : law_mul_one_r Qc.
Proof. exact Qcmult_1_r. Qed.

Lemma Qc_mul_zero_l : law_mul_zero_l Qc.
Proof. exact Qcmult_0_l. Qed.

Lemma Qc_mul_zero_r : law_mul_zero_r Qc.
Proof. exact Qcmult_0_r. Qed.

Lemma Qc_div_zero_l : law_div_zero_l Qc.
Proof. intros x _. apply Qcmult_0_l. Qed.

Lemma Qc_neg_mul : law_neg_mul Qc.
Proof. intros c x. simpl. ring. Qed.

Lemma Qc_mul_assoc : law_mul_assoc Qc.
Proof. intros c x y. simpl. ring. Qed.

Lemma Qc_div_mul : law_div_mul Qc.
Proof. intros c x y. simpl. unfold Qcdiv. ring. Qed.

(** Equality of computed rationals, through lists and results. *)
Ltac qc_equal :=
  first [ reflexivity
        | apply Qc_is_canon; vm_compute; reflexivity
        | f_equal; qc_equal ].

Ltac qc_compute := vm_compute; qc_equal.

Lemma Qtot_in_two_heatings : Qtot_in four_cells two_heatings = Ok fives.
Proof. qc_compute. Qed.

Lemma multiply_fives_vpr : jnp.multiply fives (vpr four_cells) = Ok fives.
Proof. qc_compute. Qed.

Lemma cell_integration_fives : cell_integration fives four_cells = Ok (Q2Qc (5 # 1)).
Proof. qc_compute. Qed.

(** The scenario of four uniform cells with [vpr = 1], heat sources of
    density 2 and 3, a sink of density -1 and the fraction 1/5: the input
    density is 5, the input power 5, the volume 1, and the sink is -1 at
    every cell. *)
Example four_cells_scenario :
  radially_constant_fraction_of_Pin static_runtime_params_slice one_fifth four_cells
    sink_name core_profiles (Some two_heatings)
  = Ok [map Q2Qc [-1 # 1; -1 # 1; -1 # 1; -1 # 1]].
Proof. qc_compute. Qed.

Lemma sink_profile_is_uniform_witness :
  ∃ profile,
    radially_constant_fraction_of_Pin static_runtime_params_slice one_fifth four_cells
      sink_name core_profiles (Some two_heatings) = Ok [profile]
    ∧ length profile = 4
    ∧ ∀ i, i < 4 →
        profile !! i = Some (- Q2Qc (1 # 5) * Q2Qc (5 # 1) / Q2Qc (1 # 1))%F.
Proof.
  apply (sink_profile_is_uniform static_runtime_params_slice one_fifth four_cells
           sink_name core_profiles two_heatings
           (Build_DynamicRuntimeParams (Q2Qc (1 # 5)))
           fives fives (Q2Qc (5 # 1)) (Q2Qc (1 # 1))).
  - exact Qc_mul_one_r.
  - reflexivity.
  - exact Qtot_in_two_heatings.
  - exact multiply_fives_vpr.
  - exact cell_integration_fives.
  - reflexivity.
Defined.

Lemma Qtot_in_sums_the_heating_inputs_witness :
  Qtot_in four_cells two_heatings
  = Ok (zip_with fadd (map Q2Qc [2 # 1; 2 # 1; 2 # 1; 2 # 1])
                      (map Q2Qc [3 # 1; 3 # 1; 3 # 1; 3 # 1])).
Proof.
  assert (Hel : NoDup (dict_keys (temp_el two_heatings))).
  { apply NoDup_ListNoDup. vm_compute. repeat constructor; simpl; intuition discriminate. }
  assert (Hion : NoDup (dict_keys (temp_ion two_heatings))) by constructor.
  apply (proj2 (Qtot_in_sums_the_heating_inputs four_cells two_heatings Hel Hion)
           "generic_ion_el_heat_source" "ohmic_heat_source" "bremsstrahlung_heat_sink"
           _ _ (map Q2Qc [-1 # 1; -1 # 1; -1 # 1; -1 # 1])).
  - exact Qc_add_zero_l.
  - reflexivity.
  - reflexivity.
  - reflexivity.
  - reflexivity.
  - reflexivity.
  - left. split; reflexivity.
Defined.

Lemma missing_profiles_is_an_error_witness :
  radially_constant_fraction_of_Pin static_runtime_params_slice one_fifth four_cells
    sink_name core_profiles None
  = Raise (ValueError missing_profiles_message).
Proof.
  apply (proj1 (proj2 (missing_profiles_is_an_error static_runtime_params_slice
                         one_fifth four_cells sink_name core_profiles))
           (Build_DynamicRuntimeParams (Q2Qc (1 # 5)))).
  reflexivity.
Defined.

Lemma returns_one_electron_heat_profile_witness :
  ∃ profile,
    [map Q2Qc [-1 # 1; -1 # 1; -1 # 1; -1 # 1]] = [profile]
    ∧ length profile = 4
    ∧ contributions [map Q2Qc [-1 # 1; -1 # 1; -1 # 1; -1 # 1]] = [(TEMP_EL, profile)].
Proof.
  apply (returns_one_electron_heat_profile static_runtime_params_slice one_fifth
           four_cells sink_name core_profiles (Some two_heatings)).
  exact four_cells_scenario.
Defined.

Lemma fraction_is_applied_unchecked_witness :
  radially_constant_fraction_of_Pin static_runtime_params_slice seven_halves four_cells
    sink_name core_profiles (Some two_heatings)
  = Ok [replicate 4 (- Q2Qc (7 # 2) * Q2Qc (5 # 1) / Q2Qc (1 # 1))%F]
  ∧ radially_constant_fraction_of_Pin static_runtime_params_slice minus_three_halves
      four_cells sink_name core_profiles (Some two_heatings)
    = Ok [replicate 4 (- Q2Qc (-3 # 2) * Q2Qc (5 # 1) / Q2Qc (1 # 1))%F].
Proof.
  pose proof (fraction_is_applied_unchecked static_runtime_params_slice four_cells
                sink_name core_profiles two_heatings fives fives
                (Q2Qc (5 # 1)) (Q2Qc (1 # 1))
                Qc_mul_one_r Qtot_in_two_heatings multiply_fives_vpr
                cell_integration_fives eq_refl) as Hany.
  split; apply Hany; reflexivity.
Defined.

(** The same in binary64, with the fraction 3.5. *)
Example fraction_above_one_binary64 :
  radially_constant_fraction_of_Pin static_runtime_params_slice
    {| sources := [(sink_name, OfConstantFraction (Build_DynamicRuntimeParams 3.5%float))] |}
    four_cells_binary64 sink_name core_profiles (Some two_heatings_binary64)
  = Ok [[-17.5; -17.5; -17.5; -17.5]%float].
Proof. reflexivity. Qed.



(** Without parameters for the source in the slice the call without the
    container raises [KeyError] with the name of the source, which does not
    name the model function. *)
Lemma missing_profiles_counterexample :
  radially_constant_fraction_of_Pin static_runtime_params_slice no_parameters four_cells
    sink_name core_profiles None
  = Raise (KeyError sink_name)
  ∧ str_contains MODEL_FUNCTION_NAME (exn_message (KeyError sink_name)) = false
  ∧ ¬ ∃ e,
      radially_constant_fraction_of_Pin static_runtime_params_slice no_parameters
        four_cells sink_name core_profiles None = Raise e
      ∧ str_contains MODEL_FUNCTION_NAME (exn_message e) = true.
Proof.
  split; [reflexivity|]. split; [reflexivity|].
  intros (e & He & Hname). vm_compute in He. injection He as <-. discriminate.
Qed.

(** The provider of a rising fraction: halfway between the samples the
    fraction is halfway between their values. *)
Example rising_fraction_at_one :
  (build_dynamic_params rising_fraction (Q2Qc (1 # 1))).1
  = Ok (Build_DynamicRuntimeParams (Q2Qc (1 # 5))).
Proof. qc_compute. Qed.

(** * The configuration run on sample validators *)

Lemma constant_fraction_config_fields_witness :
  let config := {| source_name := "impurity_radiation_heat_sink";
                   model_func := "radially_constant_fraction_of_Pin";
                   config_fraction_of_total_power_density := 0.1%float;
                   mode := MODEL_BASED |} in
  source_name config = "impurity_radiation_heat_sink"
  ∧ model_func config = "radially_constant_fraction_of_Pin"
  ∧ (dict_lookup "fraction_of_total_power_density" constant_fraction_only = None →
       validate_TimeVaryingScalar (PFloat 0.1%float)
         = Ok (config_fraction_of_total_power_density config))
  ∧ (dict_lookup "mode" constant_fraction_only = None → mode config = MODEL_BASED).
Proof.
  apply (constant_fraction_config_fields (MavrinFitConfig := dict pyval)
           constant_fraction_only).
  reflexivity.
Defined.

(** The discriminated union on the two raw specifications. *)
Example no_model_func_is_mavrin_fit :
  validate_ImpurityRadiationHeatSinkConfig (TimeVaryingScalar := float) no_model_func
  = Ok (MavrinFit no_model_func).
Proof. reflexivity. Qed.

Example constant_fraction_only_is_constant_fraction :
  validate_ImpurityRadiationHeatSinkConfig (MavrinFitConfig := dict pyval)
    constant_fraction_only
  = Ok (ConstantFraction
          {| source_name := "impurity_radiation_heat_sink";
             model_func := "radially_constant_fraction_of_Pin";
             config_fraction_of_total_power_density := 0.1%float;
             mode := MODEL_BASED |}).
Proof. reflexivity. Qed.

(** * [_conform_data] run on two raw mappings *)

Lemma conform_data_names_separate_entries_witness :
  ∃ constructor_data,
    _conform_data separate_specifications = Ok (SourceModelConfig constructor_data)
    ∧ dict_keys (entries constructor_data) = ["gas_puff_source"; "pellet_source"]
    ∧ ∀ key, key ∈ ["gas_puff_source"; "pellet_source"] →
        source_name_of constructor_data key = Some (PStr key).
Proof.
  apply (conform_data_names_separate_entries separate_specifications).
  - apply NoDup_ListNoDup. vm_compute. repeat constructor; simpl; intuition discriminate.
  - apply NoDup_ListNoDup. vm_compute. repeat constructor; simpl; intuition discriminate.
  - intros k l Hin. exists [].
    apply elem_of_cons in Hin as [[= -> ->]|Hin]; [reflexivity|].
    apply elem_of_cons in Hin as [[= -> ->]|Hin]; [reflexivity|].
    now apply elem_of_nil in Hin.
Defined.

(** What the shared specification leads to: the entry of the gas puff is
    validated by the class of the pellet. *)
Example shared_specification_is_validated_twice_as_pellet :
  (conformed ← _conform_data shared_specification;
   match conformed with
   | SourceModelConfig constructor_data => validate_source_model_config constructor_data
   | PassedThrough _ => Ok []
   end)
  = Ok [("gas_puff_source", ("pellet_source", [("source_name", PStr "pellet_source")]));
        ("pellet_source", ("pellet_source", [("source_name", PStr "pellet_source")]))].
Proof. reflexivity. Qed.

Example separate_specifications_are_validated_by_their_classes :
  (conformed ← _conform_data separate_specifications;
   match conformed with
   | SourceModelConfig constructor_data => validate_source_model_config constructor_data
   | PassedThrough _ => Ok []
   end)
  = Ok [("gas_puff_source", ("gas_puff_source", [("source_name", PStr "gas_puff_source")]));
        ("pellet_source", ("pellet_source", [("source_name", PStr "pellet_source")]))].
Proof. reflexivity. Qed.

(** * The model function run in binary64 *)

Example four_cells_scenario_binary64 :
  radially_constant_fraction_of_Pin static_runtime_params_slice one_fifth_binary64
    four_cells_binary64 sink_name core_profiles (Some two_heatings_binary64)
  = Ok [[-1; -1; -1; -1]%float].
Proof. reflexivity. Qed.

(** * Further instances of the lemmas on the model function *)

Lemma radially_constant_fraction_of_Pin_returns_witness :
  ∃ P V,
    radially_constant_fraction_of_Pin static_runtime_params_slice one_fifth four_cells
      sink_name core_profiles (Some two_heatings)
    = Ok [replicate 4 (- Q2Qc (1 # 5) * P / V * 1)%F].
Proof.
  apply (radially_constant_fraction_of_Pin_returns static_runtime_params_slice one_fifth
           four_cells sink_name core_profiles two_heatings
           (Build_DynamicRuntimeParams (Q2Qc (1 # 5)))).
  - reflexivity.
  - apply NoDup_ListNoDup. vm_compute. repeat constructor; simpl; intuition discriminate.
  - constructor.
  - repeat constructor.
  - constructor.
  - reflexivity.
  - intros x Hx. simpl. unfold uniform_cell_integration.
    rewrite Hx. simpl. eauto.
  - discriminate.
Defined.

(** * Further properties of [Sources._conform_data] *)


Lemma dict_setitem_setitem {V} k (v v' : V) d :
  dict_setitem k v (dict_setitem k v' d) = dict_setitem k v d.
Proof.
  induction d as [|[k0 v0] d IH]; simpl.
  - now rewrite String.eqb_refl.
  - destruct (String.eqb_spec k k0) as [->|Hk]; simpl.
    + now rewrite String.eqb_refl.
    + destruct (String.eqb_spec k k0); [congruence|]. now rewrite IH.
Qed.

Lemma last_key_bound_to_Some (l : loc) (bindings : dict loc) key :
  (key, l) ∈ bindings → ∃ key', last_key_bound_to l bindings = Some key'.
Proof.
  induction bindings as [|[k0 l0] later IH]; intros Hin; simpl.
  - now apply elem_of_nil in Hin.
  - apply elem_of_cons in Hin as [[= <- <-]|Hin].
    + destruct (last_key_bound_to l later); [eauto|]. rewrite Nat.eqb_refl. eauto.
    + destruct (IH Hin) as [key' ->]. eauto.
Qed.

(** The key a location ends with is a key bound to it. *)
Lemma last_key_bound_to_elem_of (l : loc) (bindings : dict loc) key :
  last_key_bound_to l bindings = Some key → (key, l) ∈ bindings.
Proof.
  induction bindings as [|[k0 l0] later IH]; simpl; [discriminate|].
  destruct (last_key_bound_to l later) as [key'|].
  - intros [= ->]. right. now apply IH.
  - destruct (Nat.eqb_spec l0 l) as [->|]; [|discriminate].
    intros [= ->]. left.
Qed.


(** The loop over a part of the keys, whatever objects they share: every
    object bound to one of these keys ends with the name of the last of
    them, every other object is as before. *)
Lemma update_source_names_shared (rest : dict loc) (cd : RawMapping) :
  (∀ k l, (k, l) ∈ rest → dict_lookup k (entries cd) = Some l) →
  (∀ k l, (k, l) ∈ rest → ∃ fields, objects cd !! l = Some (Mapping fields)) →
  ∃ cd',
    for_in (dict_keys rest) update_source_name cd = Ok cd'
    ∧ entries cd' = entries cd
    ∧ ∀ l fields,
        objects cd !! l = Some (Mapping fields) →
        objects cd' !! l
          = Some (Mapping match last_key_bound_to l rest with
                          | Some key => dict_setitem "source_name" (PStr key) fields
                          | None => fields
                          end).
Proof.
  revert cd. induction rest as [|[k l] rest IH]; intros cd Hkeys Hmap; simpl.
  - exists cd. auto.
  - destruct (Hmap k l) as [fields Hfields]; [left|].
    rewrite (update_source_name_Mapping cd k l fields) by (auto; apply Hkeys; left).
    simpl. set (cd1 := {| entries := entries cd; objects := _ |}).
    destruct (IH cd1) as (cd' & Hloop & Hentries & Hnamed).
    + intros k' l' Hin. simpl. apply Hkeys. now right.
    + intros k' l' Hin. simpl. destruct (decide (l' = l)) as [->|Hne].
      * rewrite lookup_insert_eq. eauto.
      * rewrite lookup_insert_ne by auto. apply (Hmap k'). now right.
    + exists cd'. split; [assumption|]. split; [now rewrite Hentries|].
      intros l0 fields0 Hobj. destruct (Nat.eqb_spec l l0) as [->|Hne].
      * assert (fields0 = fields) as -> by congruence.
        rewrite (Hnamed l0 (dict_setitem "source_name" (PStr k) fields))
          by (simpl; apply lookup_insert_eq).
        destruct (last_key_bound_to l0 rest); [|reflexivity].
        now rewrite dict_setitem_setitem.
      * rewrite (Hnamed l0 fields0) by (simpl; now rewrite lookup_insert_ne).
        now destruct (last_key_bound_to l0 rest).
Qed.

(** On a raw mapping with distinct keys, all bound to [dict] objects, the
    validator returns the new [dict], and the specification of a key carries
    the name of the last key bound to the same object: its own key exactly
    when no later key shares the object. *)
Theorem conform_data_names_by_last_key (data : RawMapping) :
  dict_contains "source_model_config" (entries data) = false →
  NoDup (dict_keys (entries data)) →
  (∀ k l, (k, l) ∈ entries data → ∃ fields, objects data !! l = Some (Mapping fields)) →
  ∃ constructor_data,
    _conform_data data = Ok (SourceModelConfig constructor_data)
    ∧ entries constructor_data = entries data
    ∧ ∀ key l, (key, l) ∈ entries data →
        ∃ last,
          last_key_bound_to l (entries data) = Some last
          ∧ (last, l) ∈ entries data
          ∧ source_name_of constructor_data key = Some (PStr last).
Proof.
  intros Hsmc Hkeys Hmap. unfold _conform_data. rewrite Hsmc.
  destruct (update_source_names_shared (entries data) (deepcopy data))
    as (cd & Hloop & Hentries & Hnamed); simpl; auto.
  { intros k l Hin. now apply dict_lookup_item. }
  exists cd. rewrite Hloop. simpl in *. split; [reflexivity|]. split; [assumption|].
  intros key l Hin.
  destruct (last_key_bound_to_Some l (entries data) key Hin) as [last Hlast].
  exists last. split; [assumption|].
  split; [now apply last_key_bound_to_elem_of|].
  destruct (Hmap key l Hin) as [fields Hfields].
  unfold source_name_of, entry_of. rewrite Hentries.
  rewrite (dict_lookup_item _ _ _ Hkeys Hin). simpl.
  rewrite (Hnamed l fields Hfields), Hlast. apply dict_lookup_setitem_eq.
Qed.

(** The loop stops with [AttributeError] at the first key whose object is
    not a [dict], and no other exception leaves it. *)
Lemma update_source_names_AttributeError (rest : dict loc) (cd : RawMapping) key l :
  (∀ k' l', (k', l') ∈ rest → dict_lookup k' (entries cd) = Some l') →
  (key, l) ∈ rest →
  (∀ fields, objects cd !! l ≠ Some (Mapping fields)) →
  for_in (dict_keys rest) update_source_name cd
    = Raise (AttributeError "object has no attribute 'update'").
Proof.
  revert cd. induction rest as [|[k0 l0] rest IH]; intros cd Hkeys Hin Hbad; simpl.
  - now apply elem_of_nil in Hin.
  - assert (Hk0 : dict_lookup k0 (entries cd) = Some l0) by (apply Hkeys; left).
    destruct (objects cd !! l0) as [[fields|value]|] eqn:Hobj.
    + rewrite (update_source_name_Mapping cd k0 l0 fields) by assumption. simpl.
      apply elem_of_cons in Hin as [Hin|Hin].
      * simplify_eq. now destruct (Hbad fields).
      * apply IH; simpl; auto.
        -- intros k' l' Hin'. apply Hkeys. now right.
        -- intros fields'. rewrite lookup_insert_ne; [apply Hbad|].
           intros ->. now destruct (Hbad fields).
    + replace (update_source_name cd k0)
        with (Raise (A := RawMapping) (AttributeError "object has no attribute 'update'"));
        [reflexivity|].
      unfold update_source_name. rewrite (dict_getitem_Some _ _ _ Hk0). simpl.
      now rewrite Hobj.
    + replace (update_source_name cd k0)
        with (Raise (A := RawMapping) (AttributeError "object has no attribute 'update'"));
        [reflexivity|].
      unfold update_source_name. rewrite (dict_getitem_Some _ _ _ Hk0). simpl.
      now rewrite Hobj.
Qed.

(** A raw mapping without the key ['source_model_config'], with distinct
    keys, one of them bound to [None], a boolean, a number, a string or a
    list: the validator raises [AttributeError]. *)
Theorem conform_data_entry_not_a_dict (data : RawMapping) key l value :
  dict_contains "source_model_config" (entries data) = false →
  NoDup (dict_keys (entries data)) →
  (key, l) ∈ entries data →
  objects data !! l = Some (Atom value) →
  has_no_update value = true →
  _conform_data data = Raise (AttributeError "object has no attribute 'update'").
Proof.
  intros Hsmc Hkeys Hin Hobj _. unfold _conform_data. rewrite Hsmc.
  rewrite (update_source_names_AttributeError (entries data) (deepcopy data) key l);
    simpl; auto.
  - intros k' l' Hin'. now apply dict_lookup_item.
  - intros fields. now rewrite Hobj.
Qed.

Lemma conform_data_entry_not_a_dict_witness :
  _conform_data bootstrap_is_none = Raise (AttributeError "object has no attribute 'update'").
Proof.
  apply (conform_data_entry_not_a_dict bootstrap_is_none "j_bootstrap" 1 PNone).
  - reflexivity.
  - apply NoDup_ListNoDup. vm_compute. repeat constructor; simpl; intuition discriminate.
  - right. left.
  - reflexivity.
  - reflexivity.
Defined.

Lemma conform_data_names_by_last_key_witness :
  ∃ constructor_data,
    _conform_data shared_specification = Ok (SourceModelConfig constructor_data)
    ∧ entries constructor_data = entries shared_specification
    ∧ ∀ key l, (key, l) ∈ entries shared_specification →
        ∃ last,
          last_key_bound_to l (entries shared_specification) = Some last
          ∧ (last, l) ∈ entries shared_specification
          ∧ source_name_of constructor_data key = Some (PStr last).
Proof.
  apply (conform_data_names_by_last_key shared_specification).
  - reflexivity.
  - apply NoDup_ListNoDup. vm_compute. repeat constructor; simpl; intuition discriminate.
  - intros k l Hin. exists [].
    apply elem_of_cons in Hin as [Hin|Hin]; [now simplify_eq|].
    apply elem_of_cons in Hin as [Hin|Hin]; [now simplify_eq|].
    now apply elem_of_nil in Hin.
Defined.

(** * The field [source_model_config] after the validator *)



Section SourcesProperties.
Context {Config : Type} `{SourceModels Config}.





End SourcesProperties.


(** * Further properties of the discriminated union *)

Section UnionProperties.
Context {MavrinFitConfig TimeVaryingScalar : Type}.
Context `{MavrinFitModule MavrinFitConfig} `{ToraxPydantic TimeVaryingScalar}.

(** The constant-fraction class is chosen by a raw specification that names
    it and by no other: a validated constant-fraction configuration comes
    from a ['model_func'] that is its tag, a validated mavrin-fit one from a
    raw specification without the key or with the mavrin-fit tag. *)
Theorem variant_is_selected_by_model_func (raw : dict pyval)
    (config : ImpurityRadiationHeatSinkConfig MavrinFitConfig TimeVaryingScalar) :
  validate_ImpurityRadiationHeatSinkConfig raw = Ok config →
  match config with
  | ConstantFraction _ =>
      dict_lookup "model_func" raw = Some (PStr "radially_constant_fraction_of_Pin")
  | MavrinFit _ =>
      dict_lookup "model_func" raw = None
      ∨ dict_lookup "model_func" raw = Some (PStr "impurity_radiation_mavrin_fit")
  end.
Proof.
  unfold validate_ImpurityRadiationHeatSinkConfig,
    get_impurity_heat_sink_discriminator_value, dict_get.
  destruct (dict_lookup "model_func" raw) as [[| | | |tag| |]|]; simpl; try discriminate.
  - destruct (String.eqb_spec tag "impurity_radiation_mavrin_fit") as [->|_].
    + destruct (mavrin_fit_model_validate raw); simpl; [|discriminate].
      intros [= <-]. now right.
    + destruct (String.eqb_spec tag "radially_constant_fraction_of_Pin") as [->|_];
        [|discriminate].
      destruct (model_validate raw); simpl; [|discriminate]. now intros [= <-].
  - destruct (mavrin_fit_model_validate raw); simpl; [|discriminate].
    intros [= <-]. now left.
Qed.



End UnionProperties.

Lemma variant_is_selected_by_model_func_witness :
  dict_lookup "model_func" constant_fraction_only
  = Some (PStr "radially_constant_fraction_of_Pin").
Proof.
  apply (variant_is_selected_by_model_func (MavrinFitConfig := dict pyval)
           constant_fraction_only
           (ConstantFraction
              {| source_name := "impurity_radiation_heat_sink";
                 model_func := "radially_constant_fraction_of_Pin";
                 config_fraction_of_total_power_density := 0.1%float;
                 mode := MODEL_BASED |})).
  reflexivity.
Defined.

(** * Further properties of the model function *)

Lemma NoDup_keys_drop_sinks {A} (profiles : dict A) :
  NoDup (dict_keys profiles) → NoDup (dict_keys (drop_sinks profiles)).
Proof.
  unfold dict_keys, drop_sinks.
  induction profiles as [|[k v] profiles IH]; simpl; intros Hnd; [constructor|].
  apply NoDup_cons in Hnd as [Hk Hnd].
  destruct (negb (str_contains "sink" k)); simpl; [|auto].
  apply NoDup_cons. split; [|auto].
  intros Hin. apply Hk. apply list_elem_of_fmap in Hin as ([k' v'] & -> & Hin).
  apply list_elem_of_In, List.filter_In in Hin as [Hin _].
  apply list_elem_of_fmap. exists (k', v'). split; [reflexivity|].
  now apply list_elem_of_In.
Qed.

Section FurtherModelProperties.
Context {F : Type} `{Scalar F} `{MathUtils F}.

Implicit Types (geo : Geometry F) (csp : SourceProfiles F).

Lemma heating_inputs_drop_sinks (profiles : dict (jnp.array F)) :
  heating_inputs (drop_sinks profiles) = heating_inputs profiles.
Proof.
  unfold heating_inputs, drop_sinks. f_equal.
  induction profiles as [|[k v] profiles IH]; simpl; [reflexivity|].
  destruct (negb (str_contains "sink" k)) eqn:Hk; simpl; [|assumption].
  rewrite Hk. now f_equal.
Qed.

(** The call is the same function of the aggregate, whatever the container. *)
Lemma radially_constant_fraction_of_Pin_same_Qtot_in static dyn geo name core csp csp' :
  Qtot_in geo csp' = Qtot_in geo csp →
  radially_constant_fraction_of_Pin static dyn geo name core (Some csp')
  = radially_constant_fraction_of_Pin static dyn geo name core (Some csp).
Proof. intros HQ. unfold radially_constant_fraction_of_Pin. now rewrite HQ. Qed.

(** The sink never reads an entry named as a sink, its own earlier value
    among them: on containers with distinct keys the call gives the same
    result, value or exception, with these entries taken out. *)
Theorem sinks_are_never_read static dyn geo name core csp :
  NoDup (dict_keys (temp_el csp)) →
  NoDup (dict_keys (temp_ion csp)) →
  radially_constant_fraction_of_Pin static dyn geo name core (Some (without_sinks csp))
  = radially_constant_fraction_of_Pin static dyn geo name core (Some csp).
Proof.
  intros Hel Hion. apply radially_constant_fraction_of_Pin_same_Qtot_in.
  rewrite (Qtot_in_sum_onto geo csp Hel Hion).
  rewrite (Qtot_in_sum_onto geo (without_sinks csp)); simpl;
    try now apply NoDup_keys_drop_sinks.
  now rewrite !heating_inputs_drop_sinks.
Qed.

(** Adding onto an array of [n] cells, [n] not one: arrays of [n] cells and
    of one cell are added, any other shape is a [TypeError]. *)
Lemma add_onto_cells (start term : jnp.array F) :
  length start ≠ 1 →
  (length term = length start ∨ length term = 1) ∧
    (∃ total, jnp.add start term = Ok total ∧ length total = length start)
  ∨ (length term ≠ length start ∧ length term ≠ 1) ∧
    jnp.add start term = Raise (TypeError "incompatible shapes for broadcasting").
Proof.
  intros Hn. unfold jnp.add, jnp.broadcast.
  destruct (Nat.eqb_spec (length start) (length term)) as [Heq|Hne].
  - left. split; [auto|]. eexists. split; [reflexivity|].
    rewrite length_zip_with. lia.
  - destruct start as [|x [|x' start]]; simpl in *; try lia.
    + destruct term as [|y [|y' term]]; simpl in *; try lia.
      * left. split; [auto|]. eexists. split; reflexivity.
      * right. split; [lia|reflexivity].
    + destruct term as [|y [|y' term]]; simpl in *.
      * right. split; [lia|reflexivity].
      * left. split; [auto|]. eexists. split; [reflexivity|]. simpl.
        now rewrite length_fmap.
      * right. split; [lia|reflexivity].
Qed.

Lemma sum_onto_mis_shaped (start : jnp.array F) (terms : list (jnp.array F)) q :
  length start ≠ 1 →
  q ∈ terms →
  length q ≠ length start →
  length q ≠ 1 →
  sum_onto start terms = Raise (TypeError "incompatible shapes for broadcasting").
Proof.
  unfold sum_onto. revert start.
  induction terms as [|term terms IH]; intros start Hn Hin Hq Hq1; simpl.
  - now apply elem_of_nil in Hin.
  - destruct (add_onto_cells start term Hn)
      as [[Hshape (total & -> & Hlen)]|[Hshape ->]]; simpl; [|reflexivity].
    apply elem_of_cons in Hin as [->|Hin]; [lia|].
    apply IH; auto; congruence.
Qed.

(** A heating input whose shape is neither that of the grid nor one cell is
    an error, never a truncated or padded sum: on a grid of more than one or
    of no cell, a container with distinct keys that has such an entry, not
    named as a sink, makes the call raise [TypeError]. *)
Theorem mis_shaped_heating_input_is_a_TypeError static dyn geo name core csp p key q :
  dict_lookup name (sources dyn) = Some (OfConstantFraction p) →
  NoDup (dict_keys (temp_el csp)) →
  NoDup (dict_keys (temp_ion csp)) →
  length (rho geo) ≠ 1 →
  (key, q) ∈ temp_el csp ∨ (key, q) ∈ temp_ion csp →
  str_contains "sink" key = false →
  length q ≠ length (rho geo) →
  length q ≠ 1 →
  ∃ msg,
    radially_constant_fraction_of_Pin static dyn geo name core (Some csp)
    = Raise (TypeError msg).
Proof.
  intros Hp Hel Hion Hn Hin Hkey Hq Hq1. eexists.
  rewrite (radially_constant_fraction_of_Pin_present _ _ _ _ _ _ _ Hp).
  rewrite (Qtot_in_sum_onto geo csp Hel Hion).
  rewrite (sum_onto_mis_shaped _ _ q); [reflexivity| | | |];
    rewrite ?length_zeros_like; auto.
  assert (Hinputs : ∀ profiles : dict (jnp.array F),
            (key, q) ∈ profiles → q ∈ heating_inputs profiles).
  { intros profiles Hin'. unfold heating_inputs. apply list_elem_of_fmap.
    exists (key, q). split; [reflexivity|].
    apply list_elem_of_In, List.filter_In. split; [now apply list_elem_of_In|].
    simpl. now rewrite Hkey. }
  apply elem_of_app. destruct Hin; [left|right]; auto.
Qed.

End FurtherModelProperties.

Lemma sinks_are_never_read_witness :
  radially_constant_fraction_of_Pin static_runtime_params_slice one_fifth four_cells
    sink_name core_profiles (Some (without_sinks two_heatings))
  = radially_constant_fraction_of_Pin static_runtime_params_slice one_fifth four_cells
      sink_name core_profiles (Some two_heatings).
Proof.
  apply (sinks_are_never_read static_runtime_params_slice one_fifth four_cells
           sink_name core_profiles two_heatings).
  - apply NoDup_ListNoDup. vm_compute. repeat constructor; simpl; intuition discriminate.
  - constructor.
Defined.

Lemma mis_shaped_heating_input_is_a_TypeError_witness :
  ∃ msg,
    radially_constant_fraction_of_Pin static_runtime_params_slice one_fifth four_cells
      sink_name core_profiles (Some three_cell_ohmic)
    = Raise (TypeError msg).
Proof.
  apply (mis_shaped_heating_input_is_a_TypeError static_runtime_params_slice one_fifth
           four_cells sink_name core_profiles three_cell_ohmic
           (Build_DynamicRuntimeParams (Q2Qc (1 # 5)))
           "ohmic_heat_source" (map Q2Qc [3 # 1; 3 # 1; 3 # 1])).
  - reflexivity.
  - apply NoDup_ListNoDup. vm_compute. repeat constructor; simpl; intuition discriminate.
  - constructor.
  - simpl. lia.
  - left. right. left.
  - reflexivity.
  - simpl. lia.
  - simpl. lia.
Defined.

(** * The order of the heating inputs *)

Section OrderOfInputs.
Context {F : Type} `{Scalar F} `{MathUtils F}.

Lemma zip_with_add_right_comm (s x y : jnp.array F) :
  law_add_right_comm F →
  zip_with fadd (zip_with fadd s x) y = zip_with fadd (zip_with fadd s y) x.
Proof.
  intros Hlaw. revert x y.
  induction s as [|a s IH]; intros [|b x] [|c y]; simpl; try reflexivity.
  now rewrite Hlaw, IH.
Qed.

Lemma foldl_zip_with_add_Permutation (start : jnp.array F) (terms terms' : list (jnp.array F)) :
  law_add_right_comm F →
  terms ≡ₚ terms' →
  foldl (zip_with fadd) start terms = foldl (zip_with fadd) start terms'.
Proof.
  intros Hlaw Hperm. revert start.
  induction Hperm as [|x l l' _ IH|x y l|l l' l'' _ IH1 _ IH2]; intros start; simpl.
  - reflexivity.
  - apply IH.
  - now rewrite zip_with_add_right_comm.
  - now rewrite IH1.
Qed.

(** On per-cell terms the sum is the plain fold of the elementwise sum. *)
Lemma sum_onto_per_cell (start : jnp.array F) (terms : list (jnp.array F)) :
  Forall (λ term, length term = length start) terms →
  sum_onto start terms = Ok (foldl (zip_with fadd) start terms).
Proof.
  unfold sum_onto. revert start.
  induction terms as [|term terms IH]; intros start Hterms; simpl; [reflexivity|].
  apply Forall_cons in Hterms as [Hterm Hterms].
  replace (jnp.add start term) with (Ok (zip_with fadd start term))
    by (symmetry; apply broadcast_same_length; congruence).
  simpl. apply IH.
  eapply Forall_impl; [exact Hterms|]. simpl. intros term' Hlen.
  rewrite length_zip_with. lia.
Qed.

(** Where sums may be reordered, neither the order of the entries nor the
    mapping that holds them matters: two containers with distinct keys whose
    per-cell heating inputs are the same up to their order give the same
    result. *)
Theorem order_of_heating_inputs_is_immaterial static dyn
    (geo : Geometry F) name core (csp csp' : SourceProfiles F) :
  law_add_right_comm F →
  NoDup (dict_keys (temp_el csp)) → NoDup (dict_keys (temp_ion csp)) →
  NoDup (dict_keys (temp_el csp')) → NoDup (dict_keys (temp_ion csp')) →
  Forall (λ q, length q = length (rho geo))
    (heating_inputs (temp_el csp) ++ heating_inputs (temp_ion csp)) →
  heating_inputs (temp_el csp') ++ heating_inputs (temp_ion csp')
    ≡ₚ heating_inputs (temp_el csp) ++ heating_inputs (temp_ion csp) →
  radially_constant_fraction_of_Pin static dyn geo name core (Some csp')
  = radially_constant_fraction_of_Pin static dyn geo name core (Some csp).
Proof.
  intros Hlaw Hel Hion Hel' Hion' Hshape Hperm.
  apply radially_constant_fraction_of_Pin_same_Qtot_in.
  rewrite (Qtot_in_sum_onto geo csp Hel Hion), (Qtot_in_sum_onto geo csp' Hel' Hion').
  rewrite !sum_onto_per_cell; rewrite ?length_zeros_like; try assumption.
  - f_equal. now apply foldl_zip_with_add_Permutation.
  - now rewrite Hperm.
Qed.

End OrderOfInputs.

Lemma Qc_add_right_comm : law_add_right_comm Qc.
Proof. intros x y z. simpl. ring. Qed.

Lemma order_of_heating_inputs_is_immaterial_witness :
  radially_constant_fraction_of_Pin static_runtime_params_slice one_fifth four_cells
    sink_name core_profiles (Some (exchanged_channels both_channels))
  = radially_constant_fraction_of_Pin static_runtime_params_slice one_fifth four_cells
      sink_name core_profiles (Some both_channels).
Proof.
  apply (order_of_heating_inputs_is_immaterial static_runtime_params_slice one_fifth
           four_cells sink_name core_profiles both_channels
           (exchanged_channels both_channels)).
  - exact Qc_add_right_comm.
  - apply NoDup_ListNoDup. vm_compute. repeat constructor; simpl; intuition discriminate.
  - apply NoDup_ListNoDup. vm_compute. repeat constructor; simpl; intuition discriminate.
  - apply NoDup_ListNoDup. vm_compute. repeat constructor; simpl; intuition discriminate.
  - apply NoDup_ListNoDup. vm_compute. repeat constructor; simpl; intuition discriminate.
  - repeat constructor.
  - simpl. apply (Permutation_app_comm [_] [_; _]).
Defined.

